(** * Redfish resource walker: a shallow embedding of [redfish-walker.py]

    The crawler of [RedfishCrawler] is embedded as state-passing functions.
    The remote service, the file system and the two [urllib.parse] functions
    the crawler calls are parameters of the embedding; everything else
    ([str.startswith], [in] on strings, [str.lstrip], [os.path.join], the
    walk over the parsed JSON value, the visited set) is modelled as written
    in the source. *)

From Stdlib Require Import String Ascii ZArith List Bool Lia.
From stdpp Require Import base gmap sets strings list.
Import ListNotations.
Local Open Scope string_scope.

#[local] Set Warnings "-clear-no-such-hyp".

(** ** Python built-ins used by the crawler *)

Module Py.

(** [s.startswith(p)] *)
Definition startswith (s p : string) : bool := String.prefix p s.

(** [needle in hay] for two [str] operands: substring containment. *)
Fixpoint str_in (needle hay : string) : bool :=
  String.prefix needle hay ||
  match hay with
  | EmptyString => false
  | String _ hay' => str_in needle hay'
  end.

(** [c in chars] for a single character. *)
Fixpoint char_in (c : ascii) (chars : string) : bool :=
  match chars with
  | EmptyString => false
  | String d chars' => Ascii.eqb c d || char_in c chars'
  end.

(** [s.lstrip(chars)]: removes every leading character of [s] that
    belongs to the character set [chars]. *)
Fixpoint lstrip (chars s : string) : string :=
  match s with
  | EmptyString => EmptyString
  | String c s' => if char_in c chars then lstrip chars s' else s
  end.

(** [s.endswith("/")] *)
Fixpoint ends_with_sep (s : string) : bool :=
  match s with
  | EmptyString => false
  | String c EmptyString => Ascii.eqb c "/"
  | String _ s' => ends_with_sep s'
  end.

(** [os.path.join(a, b)] of [posixpath]. *)
Definition os_path_join (a b : string) : string :=
  if startswith b "/" then b
  else if String.eqb a "" || ends_with_sep a then a ++ b
  else a ++ "/" ++ b.

End Py.

(** ** Parsed JSON documents

    [response.json()] yields [None], a [bool], a number, a [str], a [list]
    or a [dict].  A [dict] is kept as the list of its items in iteration
    order; the crawler never looks inside a number, so a number carries its
    lexeme only. *)

#[local] Set Warnings "-register-all".

Inductive json : Type :=
| JNull
| JBool (b : bool)
| JNumber (lexeme : string)
| JString (s : string)
| JArray (items : list json)
| JObject (members : list (string * json)).

(** [d[key]] on the items of a [dict]. *)
Fixpoint dict_get (key : string) (d : list (string * json)) : option json :=
  match d with
  | [] => None
  | (k, v) :: d' => if String.eqb k key then Some v else dict_get key d'
  end.

(** The value under the top-level key ['@odata.id'], if the document is an
    object that has this key. *)
Definition root_odata_id (data : json) : option json :=
  match data with
  | JObject members => dict_get "@odata.id" members
  | _ => None
  end.

Definition is_json_string (s : string) (v : json) : bool :=
  match v with JString t => String.eqb t s | _ => false end.

(** ** Exceptions, outcomes and the crawler's state *)

Inductive exn : Type := OSError | TypeError | AttributeError.

Inductive outcome (A : Type) : Type :=
| Returned (a : A)
| Raised (e : exn)
| OutOfFuel.
Arguments Returned {A} a.
Arguments Raised {A} e.
Arguments OutOfFuel {A}.

(** The observable state of one run: the contents of the shared [visited]
    set, the GET requests issued so far (oldest first) and the files written
    so far, each with the URL it was written for. *)
Record state : Type := mkState {
  visited : gset string;
  requests : list string;
  files : list (string * string * json)
}.

Definition initial_state : state := mkState ∅ [] [].

Definition M (A : Type) : Type := state -> outcome A * state.

Definition ret {A} (a : A) : M A := fun st => (Returned a, st).

Definition raise {A} (e : exn) : M A := fun st => (Raised e, st).

Definition bind {A B} (m : M A) (k : A -> M B) : M B :=
  fun st =>
    match m st with
    | (Returned a, st') => k a st'
    | (Raised e, st') => (Raised e, st')
    | (OutOfFuel, st') => (OutOfFuel, st')
    end.

Notation "m >> k" := (bind m (fun _ => k))
  (at level 62, right associativity).

(** [for x in xs: body(x)] *)
Fixpoint for_each {A} (body : A -> M unit) (xs : list A) : M unit :=
  match xs with
  | [] => ret tt
  | x :: xs' => body x >> for_each body xs'
  end.

(** What [session.get] does for a URL: it raises a
    [requests.RequestException], or returns a response with a status code
    whose body either parses as JSON or makes [response.json()] raise
    [JSONDecodeError]. *)
Inductive response : Type :=
| RequestException
| Response (status_code : Z) (body : option json).

(** The [visited] argument of [_crawl_resource]: [None], or the one set
    that all recursive calls of a run share.  The contents of that set are
    the [visited] field of the state, so that an addition made by a callee
    is seen by its callers, as with the mutable [set] of the source. *)
Inductive visited_arg : Type := VisitedNone | VisitedSet.

Definition ODATA_ID : string := "@odata.id".
Definition REDFISH_V1 : string := "/redfish/v1".

(** ** The crawler *)

Section Crawler.

(** [urllib.parse.urljoin] and [urllib.parse.urlparse(_).path] *)
Variable urljoin : string -> string -> string.
Variable urlparse_path : string -> string.

(** Constructor arguments of [RedfishCrawler]. *)
Variable host_ip : string.
Variable start_resource : string.
Variable output_dir : string.

(** The remote service, which answers the same way each time a URL is
    requested, and whether [os.makedirs] and [open] succeed for an output
    file.  The answer of the disk for a path is the same throughout a run:
    the source only creates directories and files, so a path that was
    written once can be written again, and a refused write ends the run;
    every run of the source is therefore matched by such an oracle, false
    at the path of the refused write, also when the refusal is caused by an
    earlier write of the same run.  The [files] of the state are the writes
    in the order they were made; [disk_content] below reads them as the
    disk, a later write to a path replacing an earlier one. *)
Variable http_get : string -> response.
Variable fs_write : string -> bool.

Definition base_url : string := "https://" ++ host_ip ++ REDFISH_V1.

(** The path [_save_data] writes to. *)
Definition output_file_of (full_url : string) : string :=
  let relative_path := Py.lstrip REDFISH_V1 (urlparse_path full_url) in
  let output_folder := Py.os_path_join output_dir relative_path in
  Py.os_path_join output_folder "index.json".

Definition _save_data (full_url : string) (data : json) : M unit :=
  fun st =>
    let output_file := output_file_of full_url in
    if fs_write output_file
    then (Returned tt,
          mkState (visited st) (requests st)
                  (files st ++ [(full_url, output_file, data)]))
    else (Raised OSError, st).

Definition visited_add (full_url : string) : M unit :=
  fun st =>
    (Returned tt, mkState ({[full_url]} ∪ visited st) (requests st) (files st)).

(** [visited = set()] *)
Definition visited_new : M unit :=
  fun st => (Returned tt, mkState ∅ (requests st) (files st)).

Definition log_request (full_url : string) : M unit :=
  fun st =>
    (Returned tt, mkState (visited st) (requests st ++ [full_url]) (files st)).

Section Related.

(** [self._crawl_resource(member_url, visited)] *)
Variable crawl_resource : string -> M unit.

(** Lines 87-89: what happens for one ['@odata.id'] value that passed
    the test of line 86.  The visited test comes first; the scope test
    [current_odata_id in member_url] raises [TypeError] when the identifier
    of the current document is not a string. *)
Definition follow (current_odata_id : json) (value : string) : M unit :=
  fun st =>
    let member_url := urljoin base_url value in
    if decide (member_url ∈ visited st) then (Returned tt, st)
    else match current_odata_id with
         | JString c =>
             if Py.str_in c member_url
             then crawl_resource member_url st
             else (Returned tt, st)
         | _ => (Raised TypeError, st)
         end.

(** The source calls this function on a [dict] only; [data.items()] on
    anything else would raise [AttributeError]. *)
Fixpoint _crawl_related_resources
    (data : json) (current_odata_id : json) {struct data} : M unit :=
  match data with
  | JObject members =>
      (fix items (l : list (string * json)) : M unit :=
         match l with
         | [] => ret tt
         | (key, value) :: l' =>
             match value with
             | JString s =>
                 if String.eqb key ODATA_ID && Py.startswith s REDFISH_V1
                 then follow current_odata_id s
                 else ret tt
             | JObject _ => _crawl_related_resources value current_odata_id
             | JArray vs =>
                 (fix each (xs : list json) : M unit :=
                    match xs with
                    | [] => ret tt
                    | item :: xs' =>
                        match item with
                        | JObject _ =>
                            _crawl_related_resources item current_odata_id
                        | _ => ret tt
                        end >> each xs'
                    end) vs
             | _ => ret tt
             end >> items l'
         end) members
  | _ => raise AttributeError
  end.

(** A body that does not parse raises [JSONDecodeError], which the handler
    catches.  ['@odata.id' in data] is key membership on a [dict], element
    membership on a [list], substring containment on a [str] and a
    [TypeError] on anything else; [data['@odata.id']] is a [TypeError] on a
    [list] and on a [str].  Neither [TypeError] nor the [OSError] of
    [_save_data] is caught here or in [_crawl_resource]. *)
Definition _handle_successful_response
    (full_url : string) (body : option json) (visited : visited_arg)
  : M unit :=
  match body with
  | None => ret tt
  | Some data =>
      _save_data full_url data >>
      match visited with
      | VisitedNone => visited_new
      | VisitedSet => ret tt
      end >>
      visited_add full_url >>
      match data with
      | JObject members =>
          match dict_get ODATA_ID members with
          | Some current_odata_id =>
              _crawl_related_resources data current_odata_id
          | None => ret tt
          end
      | JArray vs =>
          if existsb (is_json_string ODATA_ID) vs
          then raise TypeError else ret tt
      | JString s =>
          if Py.str_in ODATA_ID s then raise TypeError else ret tt
      | _ => raise TypeError
      end
  end.

End Related.

(** [fuel] bounds the depth of the recursion from a resource into the
    resources it links to; the walk over one document is structural and
    needs none.  Python bounds the nesting of calls by its recursion limit
    and raises [RecursionError] beyond it, which no handler of the crawler
    catches; [OutOfFuel] is its counterpart here and ends the run in the
    same way.  [fuel] counts nested resources, not frames: a nested
    resource takes three frames or more, depending on how deep its link
    sits in the document, so a recursion limit corresponds to some bound
    on [fuel] and not to a fixed one.  A result that the crawl returns
    normally is therefore stated for the runs whose [fuel] suffices.  The
    two [ret tt] stand for [_handle_failed_response] and
    [_handle_request_exception], which only print in debug mode. *)
Fixpoint _crawl_resource
    (fuel : nat) (resource_url : string) (visited : visited_arg) : M unit :=
  match fuel with
  | O => fun st => (OutOfFuel, st)
  | S fuel' =>
      let full_url := urljoin base_url resource_url in
      log_request full_url >>
      match http_get full_url with
      | Response status_code body =>
          if (status_code =? 200)%Z
          then _handle_successful_response
                 (fun member_url => _crawl_resource fuel' member_url VisitedSet)
                 full_url body visited
          else ret tt
      | RequestException => ret tt
      end
  end.

Definition crawl (fuel : nat) : outcome unit * state :=
  _crawl_resource fuel start_resource VisitedNone initial_state.

End Crawler.

(** ** The links a document offers

    [candidate_links data] lists, in iteration order, the values for which
    the test of line 86 succeeds during [_crawl_related_resources data]:
    lemma [related_resources_for_each] below shows that the walk of the
    source is exactly a loop of [follow] over this list. *)

Fixpoint candidate_links (data : json) : list string :=
  match data with
  | JObject members =>
      (fix items (l : list (string * json)) : list string :=
         match l with
         | [] => []
         | (key, value) :: l' =>
             (match value with
              | JString s =>
                  if String.eqb key ODATA_ID && Py.startswith s REDFISH_V1
                  then [s] else []
              | JObject _ => candidate_links value
              | JArray vs =>
                  (fix each (xs : list json) : list string :=
                     match xs with
                     | [] => []
                     | item :: xs' =>
                         (match item with
                          | JObject _ => candidate_links item
                          | _ => []
                          end ++ each xs')%list
                     end) vs
              | _ => []
              end ++ items l')%list
         end) members
  | _ => []
  end.

(** The links contributed by one member of an object. *)
Definition member_links (key : string) (value : json) : list string :=
  match value with
  | JString s =>
      if String.eqb key ODATA_ID && Py.startswith s REDFISH_V1 then [s] else []
  | JObject _ => candidate_links value
  | JArray vs =>
      flat_map (fun item => match item with
                            | JObject _ => candidate_links item
                            | _ => []
                            end) vs
  | _ => []
  end.

(** Where the walk of the source finds a link: under the key ['@odata.id']
    of the object itself, in an object that is the value of a member, or in
    an object that is an element of an array that is the value of a member. *)
Inductive link_in : json -> string -> Prop :=
| link_here members s :
    In (ODATA_ID, JString s) members ->
    Py.startswith s REDFISH_V1 = true ->
    link_in (JObject members) s
| link_member members key inner s :
    In (key, JObject inner) members ->
    link_in (JObject inner) s ->
    link_in (JObject members) s
| link_element members key vs inner s :
    In (key, JArray vs) members ->
    In (JObject inner) vs ->
    link_in (JObject inner) s ->
    link_in (JObject members) s.

Definition links_sound (j : json) : Prop :=
  forall s, In s (candidate_links j) -> link_in j s.

Module Spec.

(** The Link Extractor as the specification words it: walk objects by
    key and arrays by element; emit the value of a self-identifier key
    when it is a string beginning with the root prefix; recurse into every
    nested object or array. *)
Fixpoint extract_links (document : json) : list string :=
  match document with
  | JObject members =>
      (fix pairs (l : list (string * json)) : list string :=
         match l with
         | [] => []
         | (key, value) :: l' =>
             (match value with
              | JString s =>
                  if String.eqb key ODATA_ID && Py.startswith s REDFISH_V1
                  then [s] else []
              | _ => extract_links value
              end ++ pairs l')%list
         end) members
  | JArray vs =>
      (fix elements (xs : list json) : list string :=
         match xs with
         | [] => []
         | item :: xs' => (extract_links item ++ elements xs')%list
         end) vs
  | _ => []
  end.

End Spec.

(** ** The resource graph of a service and the bookkeeping of a run *)

Section Graph.

Variable urljoin : string -> string -> string.
Variable host_ip : string.
Variable http_get : string -> response.

(** The fetch of [u] succeeds: status 200 and a body that parses. *)
Definition fetch_succeeds (u : string) : Prop :=
  exists data, http_get u = Response 200 (Some data).

(** The fetch of [u] fails: a transport exception, a status other than
    200, or a body that does not parse. *)
Definition fetch_fails (u : string) : Prop :=
  http_get u = RequestException \/
  (exists status_code body,
      http_get u = Response status_code body /\ status_code <> 200%Z) \/
  http_get u = Response 200 None.

(** [y] is the URL of a link offered by the document served at [x]. *)
Definition link (x y : string) : Prop :=
  exists data value,
    http_get x = Response 200 (Some data) /\
    In value (candidate_links data) /\
    y = urljoin (base_url host_ip) value.

(** A link of [x] that passes the scope filter of [x]. *)
Definition link_in_scope (x y : string) : Prop :=
  exists members c value,
    http_get x = Response 200 (Some (JObject members)) /\
    dict_get ODATA_ID members = Some (JString c) /\
    In value (candidate_links (JObject members)) /\
    Py.str_in c (urljoin (base_url host_ip) value) = true /\
    y = urljoin (base_url host_ip) value.

Definition reachable (x y : string) : Prop := rtc link x y.

End Graph.

Section ServiceAssumptions.

Variable urljoin : string -> string -> string.
Variable urlparse_path : string -> string.
Variable host_ip : string.
Variable output_dir : string.
Variable http_get : string -> response.
Variable fs_write : string -> bool.

(** [U] contains the URL of every link offered by a document served at a
    URL of [U]. *)
Definition closed_under_links (U : gset string) : Prop :=
  forall x data value,
    x ∈ U ->
    http_get x = Response 200 (Some data) ->
    In value (candidate_links data) ->
    urljoin (base_url host_ip) value ∈ U.

(** Every document served at a URL of [U] is a resource: an object whose
    ['@odata.id'], when it has one, is a string; and its file can be
    written. *)
Definition resources_well_formed (U : gset string) : Prop :=
  forall x data,
    x ∈ U ->
    http_get x = Response 200 (Some data) ->
    fs_write (output_file_of urlparse_path output_dir x) = true /\
    exists members,
      data = JObject members /\
      forall cur, dict_get ODATA_ID members = Some cur ->
                  exists c, cur = JString c.

(** [rec], called for an unvisited URL of [U] with at least as much fuel
    as [U] has unvisited URLs, returns normally and keeps what was
    visited. *)
Definition returns_in (U : gset string) (fuel : nat)
    (rec : string -> M unit) : Prop :=
  forall v st,
    urljoin (base_url host_ip) v ∈ U ->
    urljoin (base_url host_ip) v ∉ visited st ->
    size (U ∖ visited st) <= fuel ->
    exists st',
      rec (urljoin (base_url host_ip) v) st = (Returned tt, st') /\
      visited st ⊆ visited st'.

(** The fetch of [x] succeeds with a resource that names itself and whose
    links all pass its scope filter, and its file can be written. *)
Definition served_in_scope (x : string) : Prop :=
  exists members c,
    http_get x = Response 200 (Some (JObject members)) /\
    dict_get ODATA_ID members = Some (JString c) /\
    (forall value, In value (candidate_links (JObject members)) ->
                   Py.str_in c (urljoin (base_url host_ip) value) = true) /\
    fs_write (output_file_of urlparse_path output_dir x) = true.

End ServiceAssumptions.

Definition saved_urls (st : state) : list string :=
  map (fun f => fst (fst f)) (files st).

Definition request_count (st : state) (u : string) : nat :=
  count_occ string_dec (requests st) u.

Definition save_count (st : state) (u : string) : nat :=
  count_occ string_dec (saved_urls st) u.

(** Every file written so far is at the location derived from its URL. *)
Definition paths_derived (urlparse_path : string -> string)
    (output_dir : string) (st : state) : Prop :=
  forall u path data,
    In (u, path, data) (files st) ->
    path = output_file_of urlparse_path output_dir u.

(** The state after the GET request for [u] has been issued. *)
Definition with_request (st : state) (u : string) : state :=
  mkState (visited st) (requests st ++ [u]) (files st).

(** The state after the document of [u] has been written to [path] and [u]
    has been added to the visited set. *)
Definition with_save (st : state) (u path : string) (data : json) : state :=
  mkState ({[u]} ∪ visited st) (requests st) (files st ++ [(u, path, data)]).

Section Bookkeeping.

Variable urljoin : string -> string -> string.
Variable host_ip : string.
Variable http_get : string -> response.

(** The invariant of a run: a visited URL was requested once and saved
    once, a requested URL whose fetch succeeds is visited, and so is a
    saved one. *)
Definition consistent (st : state) : Prop :=
  (forall u, u ∈ visited st -> request_count st u = 1 /\ save_count st u = 1) /\
  (forall u, In u (requests st) -> fetch_succeeds http_get u -> u ∈ visited st) /\
  (forall u, In u (saved_urls st) -> u ∈ visited st).

Definition fetched_once (st : state) : Prop :=
  forall u, fetch_succeeds http_get u -> request_count st u <= 1.

(** What holds of the state a call leaves behind: the invariant, or, when
    an exception escaped, what is left of it. *)
Definition consistent_after (o : outcome unit) (st : state) : Prop :=
  match o with
  | Raised _ => fetched_once st
  | _ => consistent st
  end.

(** Every in-scope link of [x] has been requested. *)
Definition covered (x : string) (st : state) : Prop :=
  forall y, link_in_scope urljoin host_ip http_get x y -> In y (requests st).

(** The requests of [st'] are those of [st] followed by requests for URLs
    that satisfy [P]. *)
Definition requests_extend (P : string -> Prop) (st st' : state) : Prop :=
  exists l, requests st' = (requests st ++ l)%list /\ forall u, In u l -> P u.

Definition newly_covered (st st' : state) : Prop :=
  forall x, x ∈ visited st' -> x ∉ visited st -> covered x st'.

(** What a call of [_crawl_resource] for the URL [full_url] guarantees
    about its outcome and final state. *)
Definition crawl_post (full_url : string) (st : state)
    (r : outcome unit * state) : Prop :=
  consistent_after (fst r) (snd r) /\
  visited st ⊆ visited (snd r) /\
  requests_extend (rtc (link_in_scope urljoin host_ip http_get) full_url)
                  st (snd r) /\
  (fst r = Returned tt ->
   In full_url (requests (snd r)) /\ newly_covered st (snd r)).

(** The same for the loop over the candidate links [values] of the
    document served at [x], whose own identifier is [c]. *)
Definition loop_post (x c : string) (values : list string) (st : state)
    (r : outcome unit * state) : Prop :=
  consistent_after (fst r) (snd r) /\
  visited st ⊆ visited (snd r) /\
  requests_extend
    (fun u => exists y, link_in_scope urljoin host_ip http_get x y /\
                        rtc (link_in_scope urljoin host_ip http_get) y u)
    st (snd r) /\
  (fst r = Returned tt ->
   (forall v, In v values ->
              Py.str_in c (urljoin (base_url host_ip) v) = true ->
              In (urljoin (base_url host_ip) v) (requests (snd r))) /\
   newly_covered st (snd r)).

End Bookkeeping.

(** ** A model of [urllib.parse] for plain URLs

    The two library functions are parameters of the crawler.  The concrete
    runs below instantiate them with this model, which agrees with
    [urllib.parse] on [https] URLs and references that have no dot segments,
    no white space and no empty trailing query or fragment. *)

Module Urllib.

Definition is_delim (c : ascii) : bool :=
  Ascii.eqb c "/" || Ascii.eqb c "?" || Ascii.eqb c "#".

(** The authority of [rest], the text after ["https://"]: everything
    before the first of [/], [?] and [#]. *)
Fixpoint netloc_of (rest : string) : string :=
  match rest with
  | EmptyString => EmptyString
  | String c rest' => if is_delim c then EmptyString else String c (netloc_of rest')
  end.

Fixpoint after_netloc (rest : string) : string :=
  match rest with
  | EmptyString => EmptyString
  | String c rest' => if is_delim c then rest else after_netloc rest'
  end.

(** Everything before the first [?] or [#]. *)
Fixpoint before_query (s : string) : string :=
  match s with
  | EmptyString => EmptyString
  | String c s' =>
      if Ascii.eqb c "?" || Ascii.eqb c "#" then EmptyString
      else String c (before_query s')
  end.

Fixpoint has_slash (s : string) : bool :=
  match s with
  | EmptyString => false
  | String c s' => Ascii.eqb c "/" || has_slash s'
  end.

(** [_splitparams]: cuts at the first [;] of the last path segment. *)
Fixpoint before_params (s : string) : string :=
  match s with
  | EmptyString => EmptyString
  | String c s' =>
      if has_slash s' then String c (before_params s')
      else if Ascii.eqb c ";" then EmptyString
      else String c (before_params s')
  end.

Fixpoint drop (n : nat) (s : string) : string :=
  match n, s with
  | S n', String _ s' => drop n' s'
  | _, _ => s
  end.

Definition HTTPS : string := "https://".

(** [urlparse(url).path] *)
Definition urlparse_path (url : string) : string :=
  let rest :=
    if Py.startswith url HTTPS then after_netloc (drop 8 url) else url in
  before_params (before_query rest).

(** Everything up to and including the last [/]. *)
Fixpoint dirname (s : string) : string :=
  match s with
  | EmptyString => EmptyString
  | String c s' => if has_slash s' || Ascii.eqb c "/"
                   then String c (dirname s') else EmptyString
  end.

(** [urljoin(base, url)] for an [https] base. *)
Definition urljoin (base url : string) : string :=
  if String.eqb url "" then base
  else if Py.startswith url HTTPS then url
  else if Py.startswith url "//" then "https:" ++ url
  else if Py.startswith url "/" then HTTPS ++ netloc_of (drop 8 base) ++ url
  else HTTPS ++ netloc_of (drop 8 base)
             ++ dirname (before_query (after_netloc (drop 8 base))) ++ url.

End Urllib.

(** ** Concrete services *)

Module Scenario.

Definition obj_ref (id : string) : json := JObject [(ODATA_ID, JString id)].

(** The service of the end-to-end scenario: a collection with one member. *)
Definition chassis_service (url : string) : response :=
  if String.eqb url "https://bmc/redfish/v1/Chassis" then
    Response 200 (Some (JObject
      [(ODATA_ID, JString "/redfish/v1/Chassis");
       ("Members", JArray [obj_ref "/redfish/v1/Chassis/1"])]))
  else if String.eqb url "https://bmc/redfish/v1/Chassis/1" then
    Response 200 (Some (JObject
      [(ODATA_ID, JString "/redfish/v1/Chassis/1"); ("Name", JString "one")]))
  else Response 404 None.

Definition always_writable (_ : string) : bool := true.

Definition run (host start : string) (service : string -> response)
    (disk : string -> bool) (fuel : nat) : outcome unit * state :=
  crawl Urllib.urljoin Urllib.urlparse_path host start "redfish_mock_data"
        service disk fuel.


Definition serve (table : list (string * response)) (url : string) : response :=
  match find (fun entry => String.eqb (fst entry) url) table with
  | Some entry => snd entry
  | None => Response 404 None
  end.

Definition CHASSIS : string := "https://bmc/redfish/v1/Chassis".
Definition CHASSIS_1 : string := "https://bmc/redfish/v1/Chassis/1".
Definition CHASSIS_2 : string := "https://bmc/redfish/v1/Chassis/2".
Definition POWER : string := "https://bmc/redfish/v1/Chassis/1/Power".

(** A collection and its member, the member linking back. *)
Definition cycle_service : string -> response :=
  serve
    [(CHASSIS, Response 200 (Some (JObject
        [(ODATA_ID, JString "/redfish/v1/Chassis");
         ("Members", JArray [obj_ref "/redfish/v1/Chassis/1"])])));
     (CHASSIS_1, Response 200 (Some (JObject
        [(ODATA_ID, JString "/redfish/v1/Chassis/1");
         ("Links", JObject
            [("ContainedBy", obj_ref "/redfish/v1/Chassis")])])))].

Definition chassis_with_power : json :=
  JObject
    [(ODATA_ID, JString "/redfish/v1/Chassis");
     ("Members", JArray [obj_ref "/redfish/v1/Chassis/1"]);
     ("Power", obj_ref "/redfish/v1/Chassis/1/Power")].

Definition chassis_1_with_power : json :=
  JObject
    [(ODATA_ID, JString "/redfish/v1/Chassis/1");
     ("Power", obj_ref "/redfish/v1/Chassis/1/Power")].

(** The power resource is linked from the collection and from its member,
    and answers 404. *)
Definition missing_power_service : string -> response :=
  serve
    [(CHASSIS, Response 200 (Some chassis_with_power));
     (CHASSIS_1, Response 200 (Some chassis_1_with_power))].

(** The same graph with the power resource present. *)
Definition shared_power_service : string -> response :=
  serve
    [(CHASSIS, Response 200 (Some chassis_with_power));
     (CHASSIS_1, Response 200 (Some chassis_1_with_power));
     (POWER, Response 200 (Some (obj_ref "/redfish/v1/Chassis/1/Power")))].

(** The member reference sits in an array that is itself an element of
    the [Members] array. *)
Definition nested_array_document : json :=
  JObject
    [(ODATA_ID, JString "/redfish/v1/Chassis");
     ("Members", JArray [JArray [obj_ref "/redfish/v1/Chassis/1"]])].

Definition nested_array_service : string -> response :=
  serve
    [(CHASSIS, Response 200 (Some nested_array_document));
     (CHASSIS_1, Response 200 (Some (obj_ref "/redfish/v1/Chassis/1")))].

(** A collection with two members. *)
Definition two_members_service : string -> response :=
  serve
    [(CHASSIS, Response 200 (Some (JObject
        [(ODATA_ID, JString "/redfish/v1/Chassis");
         ("Members", JArray [obj_ref "/redfish/v1/Chassis/1";
                             obj_ref "/redfish/v1/Chassis/2"])])));
     (CHASSIS_1, Response 200 (Some (obj_ref "/redfish/v1/Chassis/1")));
     (CHASSIS_2, Response 200 (Some (obj_ref "/redfish/v1/Chassis/2")))].

(** A service root that links to two resources whose paths differ only
    in characters that [lstrip] removes. *)
Definition colliding_service : string -> response :=
  serve
    [("https://bmc/redfish/v1", Response 200 (Some (JObject
        [(ODATA_ID, JString "/redfish/v1");
         ("Chassis", obj_ref "/redfish/v1/Chassis");
         ("Alternate", obj_ref "/redfish/v1/1/Chassis")])));
     (CHASSIS, Response 200 (Some (obj_ref "/redfish/v1/Chassis")));
     ("https://bmc/redfish/v1/1/Chassis",
      Response 200 (Some (obj_ref "/redfish/v1/1/Chassis")))].

(** Every resource answers 204 with a document. *)
Definition no_content_service (_ : string) : response :=
  Response 204 (Some (obj_ref "/redfish/v1/Chassis")).

(** A document without a top-level ['@odata.id'] that holds a link. *)
Definition anonymous_document : json :=
  JObject [("Members", JArray [obj_ref "/redfish/v1/Chassis/1"])].

Definition cycle_urls : gset string := {[CHASSIS; CHASSIS_1]}.

Definition shared_power_urls : gset string := {[CHASSIS; CHASSIS_1; POWER]}.

(** A disk on which the directory of the first member cannot be written. *)
Definition member_1_read_only (output_file : string) : bool :=
  negb (String.eqb output_file "redfish_mock_data/Chassis/1/index.json").

End Scenario.


(** * Properties *)

(** ** Strings *)

Lemma append_nil (s : string) : "" ++ s = s.
Proof. reflexivity. Qed.

Lemma append_cons (c : ascii) (s t : string) :
  String c s ++ t = String c (s ++ t).
Proof. reflexivity. Qed.

Lemma prefix_iff (p s : string) :
  String.prefix p s = true <-> exists post, s = p ++ post.
Proof.
  revert s. induction p as [|c p IH]; intros s.
  - split; [intros _; exists s; reflexivity | intros _; destruct s; reflexivity].
  - destruct s as [|d s]; simpl.
    + split; [discriminate | intros [post H]; discriminate].
    + destruct (ascii_dec c d) as [Heq|Hne].
      * rewrite IH. subst d.
        split; intros [post H]; exists post;
          rewrite append_cons in *; congruence.
      * split; [discriminate |].
        intros [post H]. rewrite append_cons in H. congruence.
Qed.

Lemma str_in_nil (needle : string) :
  Py.str_in needle "" = String.prefix needle "" || false.
Proof. reflexivity. Qed.

Lemma str_in_cons (needle : string) (c : ascii) (hay : string) :
  Py.str_in needle (String c hay) =
  String.prefix needle (String c hay) || Py.str_in needle hay.
Proof. reflexivity. Qed.

Lemma str_in_iff (needle hay : string) :
  Py.str_in needle hay = true <->
  exists pre post, hay = pre ++ needle ++ post.
Proof.
  induction hay as [|c hay IH]; [rewrite str_in_nil | rewrite str_in_cons].
  - rewrite orb_false_r, prefix_iff. split.
    + intros [post H]. exists "", post. exact H.
    + intros [pre [post H]]. destruct pre.
      * rewrite append_nil in H. eauto.
      * rewrite append_cons in H. discriminate.
  - rewrite orb_true_iff, prefix_iff, IH. split.
    + intros [[post H] | [pre [post H]]].
      * exists "", post. exact H.
      * exists (String c pre), post. rewrite append_cons. congruence.
    + intros [pre [post H]]. destruct pre as [|d pre].
      * left. rewrite append_nil in H. eauto.
      * right. exists pre, post. rewrite append_cons in H. congruence.
Qed.

Lemma startswith_app (p s : string) : Py.startswith (p ++ s) p = true.
Proof. unfold Py.startswith. apply prefix_iff. eauto. Qed.

(** ** The monad *)

Lemma bind_ext {A B} (m m' : M A) (k k' : A -> M B) st :
  m st = m' st ->
  (forall a st', k a st' = k' a st') ->
  bind m k st = bind m' k' st.
Proof.
  intros Hm Hk. unfold bind. rewrite Hm.
  destruct (m' st) as [[a | e |] st']; auto.
Qed.

Lemma bind_assoc {A B C} (m : M A) (k : A -> M B) (h : B -> M C) st :
  bind (bind m k) h st = bind m (fun a => bind (k a) h) st.
Proof.
  unfold bind. destruct (m st) as [[a | e |] st']; reflexivity.
Qed.

Lemma bind_ret_r (m : M unit) st : bind m (fun _ => ret tt) st = m st.
Proof.
  unfold bind, ret. destruct (m st) as [[[] | e |] st']; reflexivity.
Qed.

Lemma for_each_app {A} (body : A -> M unit) (xs ys : list A) st :
  for_each body (xs ++ ys) st = (for_each body xs >> for_each body ys) st.
Proof.
  revert st. induction xs as [|x xs IH]; intros st; simpl.
  - reflexivity.
  - rewrite bind_assoc. apply bind_ext; auto.
Qed.

(** ** Induction over documents *)

Section JsonInduction.

Variable P : json -> Prop.
Hypothesis Hnull : P JNull.
Hypothesis Hbool : forall b, P (JBool b).
Hypothesis Hnumber : forall lexeme, P (JNumber lexeme).
Hypothesis Hstring : forall s, P (JString s).
Hypothesis Harray : forall items, Forall P items -> P (JArray items).
Hypothesis Hobject :
  forall members, Forall (fun kv => P (snd kv)) members -> P (JObject members).

Fixpoint json_nested_ind (j : json) : P j :=
  match j with
  | JNull => Hnull
  | JBool b => Hbool b
  | JNumber lexeme => Hnumber lexeme
  | JString s => Hstring s
  | JArray items =>
      Harray items
        ((fix all (l : list json) : Forall P l :=
            match l with
            | [] => List.Forall_nil P
            | x :: l' => List.Forall_cons P x l' (json_nested_ind x) (all l')
            end) items)
  | JObject members =>
      Hobject members
        ((fix all (l : list (string * json))
            : Forall (fun kv => P (snd kv)) l :=
            match l with
            | [] => List.Forall_nil _
            | kv :: l' =>
                List.Forall_cons _ kv l' (json_nested_ind (snd kv)) (all l')
            end) members)
  end.

End JsonInduction.

(** ** Link extraction *)

Lemma candidate_links_object members :
  candidate_links (JObject members) =
  flat_map (fun kv => member_links (fst kv) (snd kv)) members.
Proof.
  cbn [candidate_links].
  induction members as [| [key value] members IH]; [reflexivity |].
  cbn [flat_map fst snd]. rewrite <- IH. reflexivity.
Qed.

Lemma candidate_links_sound_nested j :
  links_sound j /\
  match j with JArray vs => Forall links_sound vs | _ => True end.
Proof.
  induction j as [| b | lexeme | s | vs IH | members IH] using json_nested_ind;
    try (split; [intros s' [] | exact I]).
  - split; [intros s' [] |].
    eapply Forall_impl; [exact IH | intros x [Hx _]; exact Hx].
  - split; [| exact I]. intros s Hs.
    rewrite candidate_links_object in Hs. apply in_flat_map in Hs.
    destruct Hs as ([key value] & Hkv & Hs). cbn [fst snd] in Hs.
    rewrite List.Forall_forall in IH. specialize (IH _ Hkv). cbn [snd] in IH.
    destruct value as [| b | lexeme | s' | vs | inner]; try contradiction.
    + cbn [member_links] in Hs.
      destruct (String.eqb key ODATA_ID) eqn:Hkey; [| contradiction].
      destruct (Py.startswith s' REDFISH_V1) eqn:Hprefix; [| contradiction].
      destruct Hs as [<- | []]. apply String.eqb_eq in Hkey. subst key.
      apply link_here; assumption.
    + cbn [member_links] in Hs. apply in_flat_map in Hs.
      destruct Hs as (item & Hitem & Hs).
      destruct IH as [_ IH]. rewrite List.Forall_forall in IH.
      specialize (IH _ Hitem).
      destruct item as [| b | lexeme | s' | vs' | inner]; try contradiction.
      eapply link_element; eauto.
    + eapply link_member; [exact Hkv |]. apply IH. exact Hs.
Qed.

Lemma candidate_links_complete j s : link_in j s -> In s (candidate_links j).
Proof.
  induction 1 as [members s Hin Hprefix
                 | members key inner s Hin _ IH
                 | members key vs inner s Hin Hitem _ IH];
    rewrite candidate_links_object; apply in_flat_map.
  - exists (ODATA_ID, JString s). split; [exact Hin |].
    cbn [fst snd member_links]. rewrite Hprefix. left. reflexivity.
  - exists (key, JObject inner). split; [exact Hin | exact IH].
  - exists (key, JArray vs). split; [exact Hin |].
    cbn [fst snd member_links]. apply in_flat_map.
    exists (JObject inner). split; [exact Hitem | exact IH].
Qed.

(** ** The crawler *)

Section Properties.

Variable urljoin : string -> string -> string.
Variable urlparse_path : string -> string.
Variable host_ip : string.
Variable output_dir : string.
Variable http_get : string -> response.
Variable fs_write : string -> bool.

Abbreviation J := (urljoin (base_url host_ip)).
Abbreviation crawl_resource :=
  (_crawl_resource urljoin urlparse_path host_ip output_dir http_get fs_write).
Abbreviation follow_with := (follow urljoin host_ip).
Abbreviation related := (_crawl_related_resources urljoin host_ip).
Abbreviation handle_success :=
  (_handle_successful_response urljoin urlparse_path host_ip output_dir fs_write).
Abbreviation file_of := (output_file_of urlparse_path output_dir).

(** The walk of [_crawl_related_resources] is a loop of [follow] over the
    candidate links of the document, in order. *)
Definition related_as_loop (rec : string -> M unit) (cur : json) (j : json)
  : Prop :=
  forall st,
    related rec j cur st =
    match j with
    | JObject _ => for_each (follow_with rec cur) (candidate_links j) st
    | _ => raise AttributeError st
    end.

Lemma related_resources_nested rec cur (j : json) :
  related_as_loop rec cur j /\
  match j with
  | JArray vs => Forall (related_as_loop rec cur) vs
  | _ => True
  end.
Proof.
  induction j using json_nested_ind; try (split; [intros st; reflexivity | exact I]).
  - split; [intros st; reflexivity |].
    eapply Forall_impl; [exact H | intros x [Hx _]; exact Hx].
  - split; [| exact I]. intros st. revert st.
    induction H as [| [key value] members [Hvalue Hitems] _ IH]; intros st.
    + reflexivity.
    + cbn [related_as_loop _crawl_related_resources candidate_links] in *.
      rewrite for_each_app. apply bind_ext; [| intros _ st'; apply IH].
      destruct value; try reflexivity.
      * destruct (String.eqb key ODATA_ID && Py.startswith s REDFISH_V1).
        -- cbn [for_each]. symmetry. apply bind_ret_r.
        -- reflexivity.
      * clear Hvalue IH. cbn [snd] in Hitems. revert st.
        induction Hitems as [| item items Hitem _ IHitems]; intros st.
        -- reflexivity.
        -- rewrite for_each_app. apply bind_ext; [| intros _ st''; apply IHitems].
           destruct item; try reflexivity. apply Hitem.
      * apply Hvalue.
Qed.

Lemma related_resources_for_each rec cur members st :
  related rec (JObject members) cur st =
  for_each (follow_with rec cur) (candidate_links (JObject members)) st.
Proof. apply (related_resources_nested rec cur (JObject members)). Qed.


(** *** Bookkeeping of requests and saves *)

Ltac split4 := split; [| split; [| split]].

Abbreviation consistent' := (consistent http_get).
Abbreviation fetched_once' := (fetched_once http_get).
Abbreviation succeeds := (fetch_succeeds http_get).
Abbreviation scoped := (link_in_scope urljoin host_ip http_get).
Abbreviation covered' := (covered urljoin host_ip http_get).

Lemma request_count_with_request st u x :
  request_count (with_request st u) x =
  request_count st x + (if string_dec u x then 1 else 0).
Proof.
  unfold request_count, with_request. cbn [requests].
  rewrite count_occ_app. cbn [count_occ]. reflexivity.
Qed.

Lemma request_count_pos st u :
  In u (requests st) <-> request_count st u > 0.
Proof. apply count_occ_In. Qed.

Lemma save_count_pos st u :
  In u (saved_urls st) <-> save_count st u > 0.
Proof. apply count_occ_In. Qed.

Lemma saved_urls_with_save st u path data :
  saved_urls (with_save st u path data) = (saved_urls st ++ [u])%list.
Proof. unfold saved_urls, with_save. cbn [files]. apply map_app. Qed.

Lemma save_count_with_save st u path data x :
  save_count (with_save st u path data) x =
  save_count st x + (if string_dec u x then 1 else 0).
Proof.
  unfold save_count. rewrite saved_urls_with_save, count_occ_app.
  cbn [count_occ]. reflexivity.
Qed.

Lemma consistent_fetched_once st : consistent' st -> fetched_once' st.
Proof.
  intros (Hvisited & Hrequested & _) u Hu.
  destruct (in_dec string_dec u (requests st)) as [Hin | Hout].
  - destruct (Hvisited u (Hrequested u Hin Hu)) as [-> _]. lia.
  - apply (count_occ_not_In string_dec) in Hout.
    unfold request_count. lia.
Qed.

Lemma consistent_request_failed st u :
  consistent' st -> u ∉ visited st -> ~ succeeds u ->
  consistent' (with_request st u).
Proof.
  intros (Hvisited & Hrequested & Hsaved) Hnew Hfail.
  split; [| split].
  - intros x Hx. cbn [with_request visited] in Hx.
    rewrite request_count_with_request.
    destruct (string_dec u x) as [-> | _]; [contradiction |].
    destruct (Hvisited x Hx) as [Hr Hs]. split; [lia | exact Hs].
  - intros x Hx Hok. cbn [with_request visited requests] in *.
    apply in_app_or in Hx. destruct Hx as [Hx | [<- | []]]; auto.
    contradiction.
  - exact Hsaved.
Qed.

Lemma fetched_once_request st u :
  consistent' st -> u ∉ visited st -> fetched_once' (with_request st u).
Proof.
  intros Hst Hnew x Hx. rewrite request_count_with_request.
  pose proof (consistent_fetched_once st Hst x Hx) as Hle.
  destruct (string_dec u x) as [<- | _]; [| lia].
  destruct Hst as (_ & Hrequested & _).
  destruct (in_dec string_dec u (requests st)) as [Hin | Hout].
  - exfalso. auto.
  - apply (count_occ_not_In string_dec) in Hout.
    unfold request_count. lia.
Qed.

Lemma consistent_saved st u path data :
  consistent' st -> u ∉ visited st -> succeeds u ->
  consistent' (with_save (with_request st u) u path data).
Proof.
  intros (Hvisited & Hrequested & Hsaved) Hnew Hok.
  assert (request_count st u = 0) as Hr0.
  { destruct (in_dec string_dec u (requests st)) as [Hin | Hout].
    - exfalso. auto.
    - apply (count_occ_not_In string_dec) in Hout. exact Hout. }
  assert (save_count st u = 0) as Hs0.
  { destruct (in_dec string_dec u (saved_urls st)) as [Hin | Hout].
    - exfalso. auto.
    - apply (count_occ_not_In string_dec) in Hout. exact Hout. }
  split; [| split].
  - intros x Hx. rewrite save_count_with_save.
    change (request_count (with_save (with_request st u) u path data) x)
      with (request_count (with_request st u) x).
    rewrite request_count_with_request.
    change (save_count (with_request st u) x) with (save_count st x).
    destruct (string_dec u x) as [<- | Hne]; [lia |].
    cbn [with_save with_request visited] in Hx.
    apply elem_of_union in Hx as [Hx | Hx];
      [apply elem_of_singleton in Hx; congruence |].
    destruct (Hvisited x Hx). lia.
  - intros x Hx Hx_ok. cbn [with_save with_request visited requests] in *.
    apply in_app_or in Hx. destruct Hx as [Hx | [<- | []]].
    + apply elem_of_union. right. auto.
    + apply elem_of_union. left. apply elem_of_singleton. reflexivity.
  - intros x Hx. rewrite saved_urls_with_save in Hx.
    cbn [with_save with_request visited].
    apply in_app_or in Hx. destruct Hx as [Hx | [<- | []]].
    + apply elem_of_union. right. auto.
    + apply elem_of_union. left. apply elem_of_singleton. reflexivity.
Qed.


Lemma requests_extend_refl P st : requests_extend P st st.
Proof. exists []. split; [symmetry; apply app_nil_r | intros u []]. Qed.

Lemma requests_extend_trans (P : string -> Prop) st1 st2 st3 :
  requests_extend P st1 st2 -> requests_extend P st2 st3 ->
  requests_extend P st1 st3.
Proof.
  intros (l1 & E1 & H1) (l2 & E2 & H2). exists (l1 ++ l2)%list. split.
  - rewrite E2, E1. symmetry. apply app_assoc.
  - intros u Hu. apply in_app_or in Hu. destruct Hu; auto.
Qed.

Lemma requests_extend_impl (P Q : string -> Prop) st st' :
  (forall u, P u -> Q u) -> requests_extend P st st' -> requests_extend Q st st'.
Proof. intros HPQ (l & E & H). exists l. split; auto. Qed.

Lemma requests_extend_In P st st' u :
  requests_extend P st st' -> In u (requests st) -> In u (requests st').
Proof. intros (l & -> & _) Hu. apply in_or_app. left. exact Hu. Qed.

Lemma covered_extend P x st st' :
  requests_extend P st st' -> covered' x st -> covered' x st'.
Proof. intros Hext Hcov y Hy. eapply requests_extend_In; eauto. Qed.

Lemma consistent_after_any o st : consistent' st -> consistent_after http_get o st.
Proof.
  intros Hst. destruct o; cbn; auto using consistent_fetched_once.
Qed.

Lemma visited_requested st u : consistent' st -> u ∈ visited st -> In u (requests st).
Proof.
  intros (Hvisited & _) Hu. apply request_count_pos.
  destruct (Hvisited u Hu) as [-> _]. lia.
Qed.

(** *** The loop over the candidate links *)

Abbreviation post := (crawl_post urljoin host_ip http_get).
Abbreviation post_loop := (loop_post urljoin host_ip http_get).

Lemma follow_loop (rec : string -> M unit) (x c : string) :
  (forall v st, consistent' st -> J v ∉ visited st ->
                post (J v) st (rec (J v) st)) ->
  forall values st,
    consistent' st ->
    (forall v, In v values -> Py.str_in c (J v) = true -> scoped x (J v)) ->
    post_loop x c values st (for_each (follow_with rec (JString c)) values st).
Proof.
  intros Hrec values.
  induction values as [| value values IH]; intros st Hst Hscoped.
  - cbn [for_each]. unfold ret. split4; cbn [fst snd].
    + exact Hst.
    + reflexivity.
    + apply requests_extend_refl.
    + intros _. split; [intros v [] | intros x' Hin Hout; contradiction].
  - assert (forall v, In v values -> Py.str_in c (J v) = true -> scoped x (J v))
      as Hscoped' by (intros v Hv; apply Hscoped; right; exact Hv).
    cbn [for_each]. unfold bind at 1. unfold follow at 1.
    destruct (decide (J value ∈ visited st)) as [Hseen | Hnew].
    { (* already visited: skipped *)
      destruct (IH st Hst Hscoped') as (Hc & Hv & He & Hr).
      split4; auto.
      intros Hret. destruct (Hr Hret) as [Hall Hcov]. split; [| exact Hcov].
      intros v [<- | Hv'] Hin; [| auto].
      eapply requests_extend_In; [exact He |].
      apply visited_requested; assumption. }
    destruct (Py.str_in c (J value)) eqn:Hscope.
    2:{ (* out of scope: skipped *)
      destruct (IH st Hst Hscoped') as (Hc & Hv & He & Hr).
      split4; auto.
      intros Hret. destruct (Hr Hret) as [Hall Hcov]. split; [| exact Hcov].
      intros v [<- | Hv'] Hin; [congruence | auto]. }
    (* followed *)
    pose proof (Hrec value st Hst Hnew) as (Hc1 & Hv1 & He1 & Hr1).
    assert (scoped x (J value)) as Hedge by (apply Hscoped; [left |]; auto).
    assert (requests_extend
              (fun u => exists y, scoped x y /\ rtc scoped y u) st
              (snd (rec (J value) st))) as He1'.
    { eapply requests_extend_impl; [| exact He1]. intros u Hu. eauto. }
    destruct (rec (J value) st) as [[[] | e |] st1]; cbn [fst snd] in *.
    + destruct (IH st1 Hc1 Hscoped') as (Hc & Hv & He & Hr).
      destruct (Hr1 eq_refl) as [Hreq1 Hcov1].
      split4.
      * exact Hc.
      * etrans; eassumption.
      * eapply requests_extend_trans; eassumption.
      * intros Hret. destruct (Hr Hret) as [Hall Hcov]. split.
        -- intros v [<- | Hv'] Hin; [| auto].
           eapply requests_extend_In; eassumption.
        -- intros x' Hin Hout.
           destruct (decide (x' ∈ visited st1)) as [Hmid | Hmid].
           ++ eapply covered_extend; [exact He |]. apply Hcov1; assumption.
           ++ apply Hcov; assumption.
    + split4; auto; discriminate.
    + split4; auto; discriminate.
Qed.


(** *** One call of [_crawl_resource] *)

Lemma crawl_resource_unfold fuel resource_url st :
  crawl_resource (S fuel) resource_url VisitedSet st =
  let full_url := J resource_url in
  let st1 := with_request st full_url in
  match http_get full_url with
  | RequestException => (Returned tt, st1)
  | Response status_code body =>
      if (status_code =? 200)%Z then
        match body with
        | None => (Returned tt, st1)
        | Some data =>
            if fs_write (file_of full_url) then
              let st2 := with_save st1 full_url (file_of full_url) data in
              match data with
              | JObject members =>
                  match dict_get ODATA_ID members with
                  | Some current_odata_id =>
                      for_each
                        (follow_with
                           (fun member_url =>
                              crawl_resource fuel member_url VisitedSet)
                           current_odata_id)
                        (candidate_links data) st2
                  | None => (Returned tt, st2)
                  end
              | JArray vs =>
                  if existsb (is_json_string ODATA_ID) vs
                  then (Raised TypeError, st2) else (Returned tt, st2)
              | JString s =>
                  if Py.str_in ODATA_ID s
                  then (Raised TypeError, st2) else (Returned tt, st2)
              | _ => (Raised TypeError, st2)
              end
            else (Raised OSError, st1)
        end
      else (Returned tt, st1)
  end.
Proof.
  cbn [_crawl_resource]. unfold bind at 1. unfold log_request at 1.
  fold (with_request st (J resource_url)).
  destruct (http_get (J resource_url)) as [| status_code body]; [reflexivity |].
  destruct (status_code =? 200)%Z; [| reflexivity].
  destruct body as [data |]; [| reflexivity].
  cbn [_handle_successful_response]. unfold bind at 1. unfold _save_data at 1.
  destruct (fs_write (file_of (J resource_url))); [| reflexivity].
  unfold bind at 1. unfold ret at 1. unfold bind at 1. unfold visited_add at 1.
  cbn [visited requests files with_request].
  fold (with_save (with_request st (J resource_url)) (J resource_url)
          (file_of (J resource_url)) data).
  destruct data as [| b | lexeme | s | vs | members]; try reflexivity.
  - destruct (Py.str_in ODATA_ID s); reflexivity.
  - destruct (existsb (is_json_string ODATA_ID) vs); reflexivity.
  - destruct (dict_get ODATA_ID members); [| reflexivity].
    apply related_resources_for_each.
Qed.

Abbreviation fails := (fetch_fails http_get).

Lemma crawl_resource_fetch_failed fuel resource_url varg st :
  fails (J resource_url) ->
  crawl_resource (S fuel) resource_url varg st =
  (Returned tt, with_request st (J resource_url)).
Proof.
  intros Hfail. cbn [_crawl_resource]. unfold bind at 1. unfold log_request at 1.
  fold (with_request st (J resource_url)).
  destruct Hfail as [-> | [(status_code & body & -> & Hstatus) | ->]].
  - reflexivity.
  - apply Z.eqb_neq in Hstatus. rewrite Hstatus. reflexivity.
  - reflexivity.
Qed.

(** C9. A fetch is treated as successful exactly when the status code of
    the response is 200: then, and only then, the success handler runs.
    For every other status code, 201 and 204 included, the call returns
    with nothing but the request recorded: no file is written, the visited
    set is unchanged and no further request is issued. *)
Theorem success_iff_status_200 fuel resource_url varg st status_code body :
  http_get (J resource_url) = Response status_code body ->
  (status_code = 200%Z ->
   crawl_resource (S fuel) resource_url varg st =
   handle_success
     (fun member_url => crawl_resource fuel member_url VisitedSet)
     (J resource_url) body varg (with_request st (J resource_url))) /\
  (status_code <> 200%Z ->
   crawl_resource (S fuel) resource_url varg st =
   (Returned tt, with_request st (J resource_url))).
Proof.
  intros Hget. split; intros Hstatus.
  - subst status_code. cbn [_crawl_resource]. unfold bind at 1.
    unfold log_request at 1. rewrite Hget. reflexivity.
  - apply crawl_resource_fetch_failed. right. left. eauto.
Qed.

(** C10. When the parsed document has no ['@odata.id'] key at its top
    level and its file can be written, the success handler saves the
    document and marks the URL visited, and does nothing else: whatever
    [_crawl_resource] would do is never asked for, so no link of the
    document is followed, however many it holds at deeper levels.  For a
    document that is an object the handler returns normally. *)
Theorem no_root_identifier_no_recursion rec full_url data varg st :
  root_odata_id data = None ->
  fs_write (file_of full_url) = true ->
  exists o,
    handle_success rec full_url (Some data) varg st =
    (o, with_save
          match varg with
          | VisitedNone => mkState ∅ (requests st) (files st)
          | VisitedSet => st
          end full_url (file_of full_url) data) /\
    (forall members, data = JObject members -> o = Returned tt).
Proof.
  intros Hroot Hwrite.
  cbn [_handle_successful_response]. unfold bind at 1. unfold _save_data at 1.
  rewrite Hwrite. unfold bind at 1.
  destruct varg; cbn [visited_new ret]; unfold bind at 1;
    cbn [visited_add visited requests files];
    (destruct data as [| b | lexeme | s | vs | members];
     [ eexists; split; [reflexivity | discriminate]
     | eexists; split; [reflexivity | discriminate]
     | eexists; split; [reflexivity | discriminate]
     | destruct (Py.str_in ODATA_ID s);
       eexists; (split; [reflexivity | discriminate])
     | destruct (existsb (is_json_string ODATA_ID) vs);
       eexists; (split; [reflexivity | discriminate])
     | cbn [root_odata_id] in Hroot; fold ODATA_ID in Hroot; rewrite Hroot;
       eexists; split; [reflexivity | reflexivity] ]).
Qed.

(** C7 (amended). An error of the fetch (a transport exception, a status
    other than 200, a body that does not parse) never leaves
    [_crawl_resource]: the call returns normally with only the request
    recorded, and whatever the crawler does next, such as the rest of the
    loop over the links of the parent, runs from that state. *)
Theorem fetch_errors_handled_locally fuel resource_url varg st :
  fails (J resource_url) ->
  crawl_resource (S fuel) resource_url varg st =
  (Returned tt, with_request st (J resource_url)) /\
  forall next : M unit,
    (crawl_resource (S fuel) resource_url varg >> next) st =
    next (with_request st (J resource_url)).
Proof.
  intros Hfail.
  pose proof (crawl_resource_fetch_failed fuel resource_url varg st Hfail) as Hrun.
  split; [exact Hrun |]. intros next. unfold bind. rewrite Hrun. reflexivity.
Qed.

(** With an identifier that is not a string the scope test raises
    [TypeError] at the first link that is not visited yet. *)
Lemma follow_loop_not_string rec cur values st :
  (forall c, cur <> JString c) ->
  exists o, for_each (follow_with rec cur) values st = (o, st).
Proof.
  intros Hcur. induction values as [| value values IH]; [eexists; reflexivity |].
  cbn [for_each]. unfold bind at 1. unfold follow at 1.
  destruct (decide (J value ∈ visited st)); [exact IH |].
  destruct cur; try (eexists; reflexivity).
  exfalso. exact (Hcur _ eq_refl).
Qed.

(** *** Where files are written *)

Abbreviation derived := (paths_derived urlparse_path output_dir).

Lemma paths_derived_with_save st u data :
  derived st -> derived (with_save st u (file_of u) data).
Proof.
  intros Hst u' path' data' Hin. cbn [with_save files] in Hin.
  apply in_app_or in Hin. destruct Hin as [Hin | [[= <- <- <-] | []]].
  - eapply Hst. exact Hin.
  - reflexivity.
Qed.

Lemma follow_loop_paths (rec : string -> M unit) cur :
  (forall member_url st, derived st -> derived (snd (rec member_url st))) ->
  forall values st,
    derived st -> derived (snd (for_each (follow_with rec cur) values st)).
Proof.
  intros Hrec values.
  induction values as [| value values IH]; intros st Hst; [exact Hst |].
  cbn [for_each]. unfold bind at 1. unfold follow at 1.
  destruct (decide (J value ∈ visited st)); [auto |].
  destruct cur; try exact Hst.
  destruct (Py.str_in s (J value)); [| auto].
  specialize (Hrec (J value) st Hst).
  destruct (rec (J value) st) as [[[] | e |] st1]; cbn [snd] in *; auto.
Qed.

Lemma crawl_resource_paths fuel :
  forall resource_url st,
    derived st -> derived (snd (crawl_resource fuel resource_url VisitedSet st)).
Proof.
  induction fuel as [| fuel IH]; intros resource_url st Hst; [exact Hst |].
  rewrite crawl_resource_unfold. cbv zeta.
  assert (derived (with_request st (J resource_url))) as Hst1 by exact Hst.
  destruct (http_get (J resource_url)) as [| status_code body]; [exact Hst1 |].
  destruct (status_code =? 200)%Z; [| exact Hst1].
  destruct body as [data |]; [| exact Hst1].
  destruct (fs_write (file_of (J resource_url))); [| exact Hst1].
  pose proof (paths_derived_with_save _ (J resource_url) data Hst1) as Hst2.
  destruct data as [| b | lexeme | s | vs | members]; try exact Hst2.
  - destruct (Py.str_in ODATA_ID s); exact Hst2.
  - destruct (existsb (is_json_string ODATA_ID) vs); exact Hst2.
  - destruct (dict_get ODATA_ID members) as [cur |]; [| exact Hst2].
    apply follow_loop_paths; [| exact Hst2].
    intros member_url st'. apply IH.
Qed.

Hypothesis urljoin_idempotent : forall v, J (J v) = J v.

(** Joining a URL that is already joined changes nothing. *)
Lemma crawl_resource_joined fuel v visited st :
  crawl_resource fuel (J v) visited st = crawl_resource fuel v visited st.
Proof.
  destruct fuel as [| fuel]; [reflexivity |].
  cbn [_crawl_resource]. rewrite urljoin_idempotent. reflexivity.
Qed.

Lemma crawl_resource_post fuel :
  forall resource_url st,
    consistent' st -> J resource_url ∉ visited st ->
    post (J resource_url) st (crawl_resource fuel resource_url VisitedSet st).
Proof.
  induction fuel as [| fuel IH]; intros resource_url st Hst Hnew.
  { cbn. split4; cbn [fst snd]; auto using requests_extend_refl; discriminate. }
  rewrite crawl_resource_unfold. cbv zeta.
  set (full_url := J resource_url) in *.
  set (st1 := with_request st full_url).
  assert (requests_extend (rtc scoped full_url) st st1) as Hext1.
  { exists [full_url]. split; [reflexivity |].
    intros u [<- | []]. apply rtc_refl. }
  assert (In full_url (requests st1)) as Hin1.
  { cbn. apply in_or_app. right. left. reflexivity. }
  assert (~ succeeds full_url -> post full_url st (Returned tt, st1)) as Hfailed.
  { intros Hfail. split4; cbn [fst snd].
    - apply consistent_request_failed; assumption.
    - reflexivity.
    - exact Hext1.
    - intros _. split; [exact Hin1 |]. intros x Hx Hx'. contradiction. }
  destruct (http_get full_url) as [| status_code body] eqn:Hget.
  { apply Hfailed. intros [data Hdata]. congruence. }
  destruct (status_code =? 200)%Z eqn:Hstatus.
  2:{ apply Hfailed. intros [data Hdata].
      apply Z.eqb_neq in Hstatus. congruence. }
  apply Z.eqb_eq in Hstatus. subst status_code.
  destruct body as [data |].
  2:{ apply Hfailed. intros [data Hdata]. congruence. }
  destruct (fs_write (file_of full_url)).
  2:{ split4; cbn [fst snd].
      - apply fetched_once_request; assumption.
      - reflexivity.
      - exact Hext1.
      - discriminate. }
  set (st2 := with_save st1 full_url (file_of full_url) data).
  assert (consistent' st2) as Hst2.
  { apply consistent_saved; [assumption .. |]. exists data. exact Hget. }
  assert (visited st ⊆ visited st2) as Hsub2.
  { cbn. apply union_subseteq_r. }
  assert (forall o,
            (forall members c,
               data = JObject members ->
               dict_get ODATA_ID members = Some (JString c) -> False) ->
            post full_url st (o, st2)) as Hleaf.
  { intros o Hno. split4; cbn [fst snd].
    - apply consistent_after_any. exact Hst2.
    - exact Hsub2.
    - exact Hext1.
    - intros _. split; [exact Hin1 |].
      intros x Hx Hx' y (members & c & value & Hserved & Hid & _).
      exfalso. cbn in Hx. apply elem_of_union in Hx as [Hx | Hx]; [| contradiction].
      apply elem_of_singleton in Hx. subst x.
      rewrite Hget in Hserved. injection Hserved as ->. eauto. }
  destruct data as [| b | lexeme | s | vs | members].
  - apply Hleaf. discriminate.
  - apply Hleaf. discriminate.
  - apply Hleaf. discriminate.
  - destruct (Py.str_in ODATA_ID s); apply Hleaf; discriminate.
  - destruct (existsb (is_json_string ODATA_ID) vs); apply Hleaf; discriminate.
  - destruct (dict_get ODATA_ID members) as [cur |] eqn:Hid.
    2:{ apply Hleaf. intros members' c [= <-]. congruence. }
    assert ((exists c, cur = JString c) \/ forall c, cur <> JString c) as [[c ->] | Hcur].
    { destruct cur; eauto; right; discriminate. }
    2:{ destruct (follow_loop_not_string
                    (fun member_url => crawl_resource fuel member_url VisitedSet)
                    cur (candidate_links (JObject members)) st2 Hcur) as [o ->];
        apply Hleaf; intros members' c [= <-]; rewrite Hid; intros [= ->];
        eapply Hcur; reflexivity. }
    pose proof (follow_loop
                  (fun member_url => crawl_resource fuel member_url VisitedSet)
                  full_url c) as Hloop.
    specialize (Hloop
      (fun v st' Hc Hv =>
         eq_ind (J (J v)) (fun u => post u st' (crawl_resource fuel (J v) VisitedSet st'))
                (IH (J v) st' Hc (eq_ind_r (fun u => u ∉ visited st') Hv
                                           (urljoin_idempotent v)))
                (J v) (urljoin_idempotent v))).
    specialize (Hloop (candidate_links (JObject members)) st2 Hst2).
    destruct Hloop as (Hc & Hv & He & Hr).
    { intros v Hv Hscope. exists members, c, v. auto. }
    split4.
    + exact Hc.
    + etrans; eassumption.
    + eapply requests_extend_trans; [exact Hext1 |].
      eapply requests_extend_impl; [| exact He].
      intros u (y & Hy & Hyu). eapply rtc_l; eassumption.
    + intros Hret. destruct (Hr Hret) as [Hall Hcov]. split.
      * eapply requests_extend_In; [exact He | exact Hin1].
      * intros x Hx Hx'.
        destruct (decide (x = full_url)) as [-> | Hne].
        -- intros y (members' & c' & value & Hserved & Hid' & Hvalue & Hscope & ->).
           rewrite Hget in Hserved. injection Hserved as <-.
           rewrite Hid in Hid'. injection Hid' as <-.
           apply Hall; assumption.
        -- apply Hcov; [exact Hx |]. cbn.
           intros Hin. apply elem_of_union in Hin as [Hin | Hin];
             [apply elem_of_singleton in Hin |]; contradiction.
Qed.


(** *** The whole crawl *)

Variable start_resource : string.

Abbreviation crawl' :=
  (crawl urljoin urlparse_path host_ip start_resource output_dir http_get fs_write).

(** The set that [_handle_successful_response] creates for the top-level
    call is the empty set the run starts with. *)
Lemma crawl_with_new_set fuel :
  crawl' fuel = crawl_resource fuel start_resource VisitedSet initial_state.
Proof.
  unfold crawl. destruct fuel as [| fuel]; [reflexivity |].
  cbn [_crawl_resource]. unfold bind, log_request.
  destruct (http_get (J start_resource)) as [| status_code body]; [reflexivity |].
  destruct (status_code =? 200)%Z; [| reflexivity].
  destruct body as [data |]; [| reflexivity].
  cbn [_handle_successful_response]. unfold bind, _save_data.
  destruct (fs_write _); reflexivity.
Qed.

Lemma crawl_paths fuel : derived (snd (crawl' fuel)).
Proof.
  rewrite crawl_with_new_set. apply crawl_resource_paths. intros u path data [].
Qed.

Lemma consistent_initial : consistent' initial_state.
Proof.
  split; [| split].
  - intros u Hu. apply not_elem_of_empty in Hu. contradiction.
  - intros u [].
  - intros u [].
Qed.

Lemma crawl_post_holds fuel :
  post (J start_resource) initial_state (crawl' fuel).
Proof.
  rewrite crawl_with_new_set.
  apply crawl_resource_post; [apply consistent_initial | apply not_elem_of_empty].
Qed.


(** *** Termination on a finite graph of resources *)

Section Finite.

Variable U : gset string.
Hypothesis U_closed : closed_under_links urljoin host_ip http_get U.
Hypothesis U_well_formed :
  resources_well_formed urlparse_path output_dir http_get fs_write U.

Abbreviation returns_within := (returns_in urljoin host_ip U).

Lemma size_unvisited_mono (V V' : gset string) :
  V ⊆ V' -> size (U ∖ V') <= size (U ∖ V).
Proof. intros HV. apply subseteq_size. set_solver. Qed.

Lemma size_unvisited_add (V : gset string) (x : string) (fuel : nat) :
  x ∈ U -> x ∉ V -> size (U ∖ V) <= S fuel ->
  size (U ∖ ({[x]} ∪ V)) <= fuel.
Proof.
  intros HxU HxV Hsize.
  assert (size (U ∖ ({[x]} ∪ V)) < size (U ∖ V)); [| lia].
  apply subset_size. split; [set_solver |].
  intros Hsub. assert (x ∈ U ∖ ({[x]} ∪ V)) by set_solver. set_solver.
Qed.

Lemma follow_loop_returns fuel rec c :
  returns_within fuel rec ->
  forall values st,
    (forall v, In v values -> J v ∈ U) ->
    size (U ∖ visited st) <= fuel ->
    exists st',
      for_each (follow_with rec (JString c)) values st = (Returned tt, st') /\
      visited st ⊆ visited st'.
Proof.
  intros Hrec values.
  induction values as [| value values IH]; intros st Hvalues Hsize.
  { exists st. split; reflexivity. }
  assert (forall v, In v values -> J v ∈ U) as Hvalues'
    by (intros v Hv; apply Hvalues; right; exact Hv).
  cbn [for_each]. unfold bind at 1. unfold follow at 1.
  destruct (decide (J value ∈ visited st)) as [Hseen | Hnew]; [auto |].
  destruct (Py.str_in c (J value)); [| auto].
  destruct (Hrec value st) as (st1 & -> & Hsub1); [apply Hvalues; left | ..]; auto.
  destruct (IH st1 Hvalues') as (st' & -> & Hsub').
  { pose proof (size_unvisited_mono _ _ Hsub1). lia. }
  exists st'. split; [reflexivity | etrans; eassumption].
Qed.

Lemma crawl_resource_returns fuel :
  returns_within fuel (fun member_url => crawl_resource fuel member_url VisitedSet).
Proof.
  induction fuel as [| fuel IH]; intros v st HvU Hnew Hsize.
  { exfalso.
    assert (size ({[J v]} : gset string) <= size (U ∖ visited st)) as Hle
      by (apply subseteq_size; set_solver).
    rewrite size_singleton in Hle. lia. }
  rewrite crawl_resource_unfold. cbv zeta. rewrite urljoin_idempotent.
  set (st1 := with_request st (J v)).
  destruct (http_get (J v)) as [| status_code body] eqn:Hget.
  { exists st1. split; reflexivity. }
  destruct (status_code =? 200)%Z eqn:Hstatus.
  2:{ exists st1. split; reflexivity. }
  apply Z.eqb_eq in Hstatus. subst status_code.
  destruct body as [data |].
  2:{ exists st1. split; reflexivity. }
  destruct (U_well_formed _ _ HvU Hget) as (-> & members & -> & Hid).
  set (st2 := with_save st1 (J v) (file_of (J v)) (JObject members)).
  assert (visited st ⊆ visited st2) as Hsub2 by apply union_subseteq_r.
  destruct (dict_get ODATA_ID members) as [cur |].
  2:{ exists st2. split; [reflexivity | exact Hsub2]. }
  destruct (Hid cur eq_refl) as [c ->].
  destruct (follow_loop_returns fuel
              (fun member_url => crawl_resource fuel member_url VisitedSet)
              c IH (candidate_links (JObject members)) st2)
    as (st' & -> & Hsub').
  - intros value Hvalue. eapply U_closed; eassumption.
  - apply size_unvisited_add; assumption.
  - exists st'. split; [reflexivity | etrans; eassumption].
Qed.

Lemma crawl_returns fuel :
  J start_resource ∈ U -> size U <= fuel ->
  exists st, crawl' fuel = (Returned tt, st).
Proof.
  intros Hstart Hsize.
  rewrite crawl_with_new_set, <- crawl_resource_joined.
  destruct (crawl_resource_returns fuel start_resource initial_state)
    as (st & Hrun & _).
  - exact Hstart.
  - apply not_elem_of_empty.
  - etrans; [| exact Hsize]. apply subseteq_size. set_solver.
  - exists st. exact Hrun.
Qed.

End Finite.


(** C1 (amended). In every crawl session, whatever the service and however
    far the run gets, a URL whose fetch succeeds (status 200 and a body
    that parses) is requested at most once, no matter how many documents
    link to it. *)
Theorem successful_fetch_at_most_once fuel u :
  succeeds u -> request_count (snd (crawl' fuel)) u <= 1.
Proof.
  intros Hu. destruct (crawl_post_holds fuel) as (Hc & _).
  destruct (crawl' fuel) as [[[] | e |] st]; cbn [fst snd consistent_after] in *;
    first [exact (Hc u Hu) | exact (consistent_fetched_once _ Hc u Hu)].
Qed.

(** Once the crawl has returned, every URL that can be reached from the
    start URL through in-scope links has been requested. *)
Lemma in_scope_reachable_requested st x :
  consistent' st ->
  In (J start_resource) (requests st) ->
  newly_covered urljoin host_ip http_get initial_state st ->
  rtc scoped (J start_resource) x ->
  In x (requests st).
Proof.
  intros (_ & Hrequested & _) Hstart Hcov Hx.
  revert x Hx. apply rtc_ind_r; [exact Hstart |].
  intros y z _ Hyz Hy.
  apply (Hcov y); [| apply not_elem_of_empty | exact Hyz].
  apply Hrequested; [exact Hy |].
  destruct Hyz as (members & c & value & Hget & _). eexists. exact Hget.
Qed.



End Properties.

(** ** The model of [urllib.parse] *)

Lemma urljoin_model_absolute base url :
  Py.startswith url Urllib.HTTPS = true -> Urllib.urljoin base url = url.
Proof.
  intros Hurl. unfold Urllib.urljoin. rewrite Hurl.
  destruct url; [discriminate | reflexivity].
Qed.

Lemma urljoin_model_https host v :
  Py.startswith (Urllib.urljoin (base_url host) v) Urllib.HTTPS = true.
Proof.
  unfold Urllib.urljoin.
  destruct (String.eqb v ""); [apply startswith_app |].
  destruct (Py.startswith v Urllib.HTTPS) eqn:Habsolute; [exact Habsolute |].
  destruct (Py.startswith v "//") eqn:Hnetloc.
  - apply prefix_iff in Hnetloc. destruct Hnetloc as [post ->].
    apply (startswith_app Urllib.HTTPS post).
  - destruct (Py.startswith v "/"); apply startswith_app.
Qed.

Lemma urljoin_model_idempotent host v :
  Urllib.urljoin (base_url host) (Urllib.urljoin (base_url host) v) =
  Urllib.urljoin (base_url host) v.
Proof. apply urljoin_model_absolute, urljoin_model_https. Qed.

(** ** The claims on link extraction, scope and storage *)

(** C3. For a current identifier that is a string, [follow] decides by
    substring containment: a link that is not visited yet is crawled exactly
    when the identifier occurs somewhere in the joined URL of the link.
    With the current identifier [/Chassis/1], [/Chassis/1/Power] is in
    scope, [/Systems/1] is not, and [/Chassis/10] is in scope; the same
    holds for the full paths once they are joined to the base URL. *)
Theorem scope_is_substring_containment :
  (forall urljoin host_ip rec c value st,
      follow urljoin host_ip rec (JString c) value st =
      if decide (urljoin (base_url host_ip) value ∈ visited st)
      then (Returned tt, st)
      else if Py.str_in c (urljoin (base_url host_ip) value)
           then rec (urljoin (base_url host_ip) value) st
           else (Returned tt, st)) /\
  (forall c member_url,
      Py.str_in c member_url = true <->
      exists pre post, member_url = pre ++ c ++ post) /\
  Py.str_in "/Chassis/1" "/Chassis/1/Power" = true /\
  Py.str_in "/Chassis/1" "/Systems/1" = false /\
  Py.str_in "/Chassis/1" "/Chassis/10" = true /\
  Py.str_in "/redfish/v1/Chassis/1"
    (Urllib.urljoin (base_url "bmc") "/redfish/v1/Chassis/1/Power") = true /\
  Py.str_in "/redfish/v1/Chassis/1"
    (Urllib.urljoin (base_url "bmc") "/redfish/v1/Systems/1") = false /\
  Py.str_in "/redfish/v1/Chassis/1"
    (Urllib.urljoin (base_url "bmc") "/redfish/v1/Chassis/10") = true.
Proof.
  split; [| split; [| repeat split]].
  - intros urljoin host_ip rec c value st. reflexivity.
  - intros c member_url. apply str_in_iff.
Qed.

(** C4 (amended). The walk of [_crawl_related_resources] over an object is
    the loop of [follow] over its candidate links, and a string is a
    candidate link exactly when it begins with [/redfish/v1] and is the
    value of an ['@odata.id'] key reached from the object through members
    that are objects and through array members whose elements are objects,
    at any depth. *)
Theorem links_found_through_objects members :
  (forall s,
      In s (candidate_links (JObject members)) <-> link_in (JObject members) s) /\
  (forall urljoin host_ip rec current_odata_id st,
      _crawl_related_resources urljoin host_ip rec (JObject members)
                               current_odata_id st =
      for_each (follow urljoin host_ip rec current_odata_id)
               (candidate_links (JObject members)) st).
Proof.
  split.
  - intros s. split.
    + apply (candidate_links_sound_nested (JObject members)).
    + apply candidate_links_complete.
  - intros urljoin host_ip rec current_odata_id st.
    apply related_resources_for_each.
Qed.

(** C4, as stated, fails: the reference to the first chassis sits in an
    array nested directly in the [Members] array; a walk that recurses into
    every array finds it, the walk of the source does not, and the crawl
    never requests it although the service would serve it. *)
Lemma link_in_nested_array_not_found :
  In "/redfish/v1/Chassis/1" (Spec.extract_links Scenario.nested_array_document) /\
  ~ In "/redfish/v1/Chassis/1" (candidate_links Scenario.nested_array_document) /\
  Scenario.nested_array_service Scenario.CHASSIS_1 =
    Response 200 (Some (Scenario.obj_ref "/redfish/v1/Chassis/1")) /\
  Scenario.run "bmc" "/redfish/v1/Chassis" Scenario.nested_array_service
               Scenario.always_writable 5 =
  (Returned tt,
   mkState {[Scenario.CHASSIS]} [Scenario.CHASSIS]
           [(Scenario.CHASSIS, "redfish_mock_data/Chassis/index.json",
             Scenario.nested_array_document)]).
Proof.
  split; [| split; [| split]].
  - cbn. right. left. reflexivity.
  - cbn. intros [H | []]. discriminate.
  - reflexivity.
  - vm_compute. reflexivity.
Qed.

(** C5. The derivation of the storage location is not injective: [lstrip]
    removes every leading character that occurs in ["/redfish/v1"], not the
    prefix, so [/redfish/v1/Chassis] and [/redfish/v1/1/Chassis] are both
    stored under [Chassis].  In a crawl that reaches both, the second
    document is written over the first. *)
Theorem storage_locations_collide :
  "/redfish/v1/Chassis" <> "/redfish/v1/1/Chassis" /\
  Py.lstrip REDFISH_V1 "/redfish/v1/Chassis" = "Chassis" /\
  Py.lstrip REDFISH_V1 "/redfish/v1/1/Chassis" = "Chassis" /\
  output_file_of Urllib.urlparse_path "redfish_mock_data"
    (Urllib.urljoin (base_url "bmc") "/redfish/v1/Chassis") =
  output_file_of Urllib.urlparse_path "redfish_mock_data"
    (Urllib.urljoin (base_url "bmc") "/redfish/v1/1/Chassis") /\
  map (fun f => (fst (fst f), snd (fst f)))
      (files (snd (Scenario.run "bmc" "/redfish/v1" Scenario.colliding_service
                                Scenario.always_writable 5))) =
  [("https://bmc/redfish/v1", "redfish_mock_data/index.json");
   ("https://bmc/redfish/v1/Chassis", "redfish_mock_data/Chassis/index.json");
   ("https://bmc/redfish/v1/1/Chassis", "redfish_mock_data/Chassis/index.json")].
Proof.
  split; [discriminate |].
  split; [reflexivity |].
  split; [reflexivity |].
  split; [reflexivity |].
  vm_compute. reflexivity.
Qed.

(** C6. The location a document is written to is a function of its URL
    alone: whenever two runs, of whatever services, disks, start resources
    and lengths, each write a document for the same URL, they write it to
    the same path, the one [output_file_of] derives from the URL. *)
Theorem storage_location_deterministic
    urlparse_path output_dir
    urljoin1 host1 start1 http_get1 fs_write1 fuel1
    urljoin2 host2 start2 http_get2 fs_write2 fuel2
    u path1 data1 path2 data2 :
  In (u, path1, data1)
     (files (snd (crawl urljoin1 urlparse_path host1 start1 output_dir
                        http_get1 fs_write1 fuel1))) ->
  In (u, path2, data2)
     (files (snd (crawl urljoin2 urlparse_path host2 start2 output_dir
                        http_get2 fs_write2 fuel2))) ->
  path1 = path2 /\ path1 = output_file_of urlparse_path output_dir u.
Proof.
  intros H1 H2.
  apply crawl_paths in H1. apply crawl_paths in H2. split; congruence.
Qed.

Lemma storage_location_deterministic_witness :
  In (Scenario.CHASSIS_1, "redfish_mock_data/Chassis/1/index.json",
      JObject [(ODATA_ID, JString "/redfish/v1/Chassis/1");
               ("Name", JString "one")])
     (files (snd (Scenario.run "bmc" "/redfish/v1/Chassis"
                               Scenario.chassis_service
                               Scenario.always_writable 5))) /\
  In (Scenario.CHASSIS_1, "redfish_mock_data/Chassis/1/index.json",
      Scenario.chassis_1_with_power)
     (files (snd (Scenario.run "bmc" "/redfish/v1/Chassis/1"
                               Scenario.shared_power_service
                               Scenario.always_writable 3))) /\
  "redfish_mock_data/Chassis/1/index.json" =
  output_file_of Urllib.urlparse_path "redfish_mock_data" Scenario.CHASSIS_1.
Proof.
  assert (In (Scenario.CHASSIS_1, "redfish_mock_data/Chassis/1/index.json",
              JObject [(ODATA_ID, JString "/redfish/v1/Chassis/1");
                       ("Name", JString "one")])
             (files (snd (Scenario.run "bmc" "/redfish/v1/Chassis"
                                       Scenario.chassis_service
                                       Scenario.always_writable 5)))) as H1.
  { vm_compute. right. left. reflexivity. }
  assert (In (Scenario.CHASSIS_1, "redfish_mock_data/Chassis/1/index.json",
              Scenario.chassis_1_with_power)
             (files (snd (Scenario.run "bmc" "/redfish/v1/Chassis/1"
                                       Scenario.shared_power_service
                                       Scenario.always_writable 3)))) as H2.
  { vm_compute. left. reflexivity. }
  split; [exact H1 |]. split; [exact H2 |].
  exact (proj2 (storage_location_deterministic _ _ _ _ _ _ _ _ _ _ _ _ _ _
                  _ _ _ _ _ H1 H2)).
Defined.

(** ** Concrete runs *)

(** C1, as stated, fails: the power resource answers 404 and is linked from
    the collection and from its member; it is requested once for each. *)
Lemma failed_fetch_requested_twice :
  fetch_fails Scenario.missing_power_service Scenario.POWER /\
  requests (snd (Scenario.run "bmc" "/redfish/v1/Chassis"
                              Scenario.missing_power_service
                              Scenario.always_writable 5)) =
  [Scenario.CHASSIS; Scenario.CHASSIS_1; Scenario.POWER; Scenario.POWER] /\
  ~ request_count
      (snd (Scenario.run "bmc" "/redfish/v1/Chassis"
                         Scenario.missing_power_service
                         Scenario.always_writable 5))
      Scenario.POWER <= 1.
Proof.
  split; [| split].
  - right. left. exists 404%Z, None. split; [reflexivity | discriminate].
  - vm_compute. reflexivity.
  - vm_compute. lia.
Qed.

Lemma successful_fetch_at_most_once_witness :
  fetch_succeeds Scenario.missing_power_service Scenario.CHASSIS_1 /\
  request_count
    (snd (Scenario.run "bmc" "/redfish/v1/Chassis"
                       Scenario.missing_power_service
                       Scenario.always_writable 5))
    Scenario.CHASSIS_1 <= 1.
Proof.
  assert (fetch_succeeds Scenario.missing_power_service Scenario.CHASSIS_1) as H.
  { exists Scenario.chassis_1_with_power. reflexivity. }
  split; [exact H |].
  exact (successful_fetch_at_most_once
           Urllib.urljoin Urllib.urlparse_path "bmc" "redfish_mock_data"
           Scenario.missing_power_service Scenario.always_writable
           (urljoin_model_idempotent "bmc")
           "/redfish/v1/Chassis" 5 Scenario.CHASSIS_1 H).
Defined.

(** C7, as stated, fails: the file of the first member cannot be written;
    the [OSError] leaves the crawl, and the second member, which the
    service would serve, is never requested. *)
Lemma save_failure_aborts_crawl :
  Scenario.two_members_service Scenario.CHASSIS_2 =
    Response 200 (Some (Scenario.obj_ref "/redfish/v1/Chassis/2")) /\
  Scenario.run "bmc" "/redfish/v1/Chassis" Scenario.two_members_service
               Scenario.member_1_read_only 5 =
  (Raised OSError,
   mkState {[Scenario.CHASSIS]} [Scenario.CHASSIS; Scenario.CHASSIS_1]
     [(Scenario.CHASSIS, "redfish_mock_data/Chassis/index.json",
       JObject
         [(ODATA_ID, JString "/redfish/v1/Chassis");
          ("Members", JArray [Scenario.obj_ref "/redfish/v1/Chassis/1";
                              Scenario.obj_ref "/redfish/v1/Chassis/2"])])]).
Proof. split; [reflexivity |]. vm_compute. reflexivity. Qed.

Lemma fetch_errors_handled_locally_witness :
  fetch_fails Scenario.missing_power_service
              (Urllib.urljoin (base_url "bmc") "/redfish/v1/Chassis/1/Power") /\
  _crawl_resource Urllib.urljoin Urllib.urlparse_path "bmc" "redfish_mock_data"
                  Scenario.missing_power_service Scenario.always_writable
                  1 "/redfish/v1/Chassis/1/Power" VisitedSet initial_state =
  (Returned tt, with_request initial_state Scenario.POWER).
Proof.
  assert (fetch_fails Scenario.missing_power_service
            (Urllib.urljoin (base_url "bmc") "/redfish/v1/Chassis/1/Power")) as H.
  { right. left. exists 404%Z, None. split; [reflexivity | discriminate]. }
  split; [exact H |].
  exact (proj1 (fetch_errors_handled_locally
                  Urllib.urljoin Urllib.urlparse_path "bmc" "redfish_mock_data"
                  Scenario.missing_power_service Scenario.always_writable
                  0 "/redfish/v1/Chassis/1/Power" VisitedSet initial_state H)).
Defined.

Lemma success_iff_status_200_witness :
  Scenario.no_content_service
    (Urllib.urljoin (base_url "bmc") "/redfish/v1/Chassis") =
  Response 204 (Some (Scenario.obj_ref "/redfish/v1/Chassis")) /\
  _crawl_resource Urllib.urljoin Urllib.urlparse_path "bmc" "redfish_mock_data"
                  Scenario.no_content_service Scenario.always_writable
                  1 "/redfish/v1/Chassis" VisitedNone initial_state =
  (Returned tt, with_request initial_state Scenario.CHASSIS).
Proof.
  split; [reflexivity |].
  refine (proj2 (success_iff_status_200
                   Urllib.urljoin Urllib.urlparse_path "bmc" "redfish_mock_data"
                   Scenario.no_content_service Scenario.always_writable
                   0 "/redfish/v1/Chassis" VisitedNone initial_state
                   204%Z (Some (Scenario.obj_ref "/redfish/v1/Chassis"))
                   eq_refl) _).
  discriminate.
Defined.

Lemma no_root_identifier_no_recursion_witness :
  root_odata_id Scenario.anonymous_document = None /\
  Scenario.always_writable
    (output_file_of Urllib.urlparse_path "redfish_mock_data" Scenario.CHASSIS) =
  true /\
  exists o,
    _handle_successful_response
      Urllib.urljoin Urllib.urlparse_path "bmc" "redfish_mock_data"
      Scenario.always_writable
      (fun member_url =>
         _crawl_resource Urllib.urljoin Urllib.urlparse_path "bmc"
                         "redfish_mock_data" Scenario.chassis_service
                         Scenario.always_writable 5 member_url VisitedSet)
      Scenario.CHASSIS (Some Scenario.anonymous_document) VisitedSet
      initial_state =
    (o, with_save initial_state Scenario.CHASSIS
                  (output_file_of Urllib.urlparse_path "redfish_mock_data"
                                  Scenario.CHASSIS)
                  Scenario.anonymous_document) /\
    (forall members, Scenario.anonymous_document = JObject members ->
                     o = Returned tt).
Proof.
  split; [reflexivity |]. split; [reflexivity |].
  exact (no_root_identifier_no_recursion
           Urllib.urljoin Urllib.urlparse_path "bmc" "redfish_mock_data"
           Scenario.always_writable
           (fun member_url =>
              _crawl_resource Urllib.urljoin Urllib.urlparse_path "bmc"
                              "redfish_mock_data" Scenario.chassis_service
                              Scenario.always_writable 5 member_url VisitedSet)
           Scenario.CHASSIS Scenario.anonymous_document VisitedSet
           initial_state eq_refl eq_refl).
Defined.

(** *** The cycle between a collection and its member *)

Ltac eval_urljoin :=
  repeat match goal with
         | |- context [Urllib.urljoin ?b ?v] =>
             let r := eval vm_compute in (Urllib.urljoin b v) in
             change (Urllib.urljoin b v) with r
         end.

Lemma cycle_service_closed :
  closed_under_links Urllib.urljoin "bmc" Scenario.cycle_service
                     Scenario.cycle_urls.
Proof.
  intros x data value Hx Hget Hvalue.
  unfold Scenario.cycle_urls in *. set_unfold in Hx.
  destruct Hx as [Hx | Hx]; subst x; vm_compute in Hget; injection Hget as <-;
    vm_compute in Hvalue; intuition subst; eval_urljoin;
    unfold Scenario.CHASSIS, Scenario.CHASSIS_1; set_solver.
Qed.

Lemma cycle_service_well_formed :
  resources_well_formed Urllib.urlparse_path "redfish_mock_data"
                        Scenario.cycle_service Scenario.always_writable
                        Scenario.cycle_urls.
Proof.
  intros x data Hx Hget. split; [reflexivity |].
  unfold Scenario.cycle_urls in *. set_unfold in Hx.
  destruct Hx as [Hx | Hx]; subst x; vm_compute in Hget; injection Hget as <-;
    eexists; (split; [reflexivity |]); intros cur [= <-]; eauto.
Qed.

Lemma cycle_service_member_in_scope :
  link_in_scope Urllib.urljoin "bmc" Scenario.cycle_service
                Scenario.CHASSIS Scenario.CHASSIS_1.
Proof.
  eexists; exists "/redfish/v1/Chassis", "/redfish/v1/Chassis/1".
  split; [reflexivity |]. split; [reflexivity |].
  split; [cbn; right; left; reflexivity |]. split; reflexivity.
Qed.

Lemma cycle_service_link_back :
  link Urllib.urljoin "bmc" Scenario.cycle_service
       Scenario.CHASSIS_1 Scenario.CHASSIS.
Proof.
  eexists; exists "/redfish/v1/Chassis".
  split; [reflexivity |]. split; [cbn; right; left; reflexivity | reflexivity].
Qed.


(** *** A resource linked from two parents *)

Lemma shared_power_closed :
  closed_under_links Urllib.urljoin "bmc" Scenario.shared_power_service
                     Scenario.shared_power_urls.
Proof.
  intros x data value Hx Hget Hvalue.
  unfold Scenario.shared_power_urls in *. set_unfold in Hx.
  destruct Hx as [[Hx | Hx] | Hx]; subst x; vm_compute in Hget;
    injection Hget as <-; vm_compute in Hvalue; intuition subst; eval_urljoin;
    unfold Scenario.CHASSIS, Scenario.CHASSIS_1, Scenario.POWER; set_solver.
Qed.

Lemma shared_power_reachable u :
  u ∈ Scenario.shared_power_urls <->
  reachable Urllib.urljoin "bmc" Scenario.shared_power_service
            (Urllib.urljoin (base_url "bmc") "/redfish/v1/Chassis") u.
Proof.
  split.
  - intros Hu. unfold Scenario.shared_power_urls in Hu. set_unfold in Hu.
    destruct Hu as [[Hu | Hu] | Hu]; subst u.
    + apply rtc_refl.
    + apply rtc_once. exists Scenario.chassis_with_power, "/redfish/v1/Chassis/1".
      split; [reflexivity |]. split; [| reflexivity]. cbn. auto.
    + apply rtc_once.
      exists Scenario.chassis_with_power, "/redfish/v1/Chassis/1/Power".
      split; [reflexivity |]. split; [| reflexivity]. cbn. auto.
  - intros Hu. unfold reachable in Hu. revert u Hu. apply rtc_ind_r.
    + eval_urljoin. unfold Scenario.shared_power_urls, Scenario.CHASSIS. set_solver.
    + intros y z _ (data & value & Hget & Hvalue & ->) Hy.
      eapply shared_power_closed; eassumption.
Qed.

Lemma shared_power_served u :
  u ∈ Scenario.shared_power_urls ->
  served_in_scope Urllib.urljoin Urllib.urlparse_path "bmc" "redfish_mock_data"
                  Scenario.shared_power_service Scenario.always_writable u.
Proof.
  intros Hu. unfold Scenario.shared_power_urls in Hu. set_unfold in Hu.
  destruct Hu as [[Hu | Hu] | Hu]; subst u; eexists; eexists;
    (split; [reflexivity |]); (split; [reflexivity |]);
    (split; [| reflexivity]); intros value Hvalue;
    vm_compute in Hvalue; intuition subst; reflexivity.
Qed.


(** * What every run keeps *)

(** [st'] extends [st]: nothing was removed from the visited set, and the
    requests and the files of [st] are a prefix of those of [st']. *)
Definition grows (st st' : state) : Prop :=
  visited st ⊆ visited st' /\
  (exists l, requests st' = (requests st ++ l)%list) /\
  (exists f, files st' = (files st ++ f)%list).

(** Every file holds the document the service serves for its URL, at the
    location derived from the URL, which the disk accepts. *)
Definition mirrors (urlparse_path : string -> string) (output_dir : string)
    (http_get : string -> response) (fs_write : string -> bool)
    (st : state) : Prop :=
  forall u path data,
    In (u, path, data) (files st) ->
    http_get u = Response 200 (Some data) /\
    path = output_file_of urlparse_path output_dir u /\
    fs_write path = true.

(** The disk as the writes of a run leave it, oldest write first:
    [open(output_file, 'w')] replaces what an earlier write put at the same
    path, so the content of a path is what the last write to it wrote. *)
Fixpoint disk_content (writes : list (string * string * json))
    (path : string) : option json :=
  match writes with
  | [] => None
  | (_, p, data) :: later =>
      match disk_content later path with
      | Some data' => Some data'
      | None => if String.eqb p path then Some data else None
      end
  end.

(** The visited set is the set of saved URLs, and every saved URL is among
    the requested ones. *)
Definition saved_is_visited (st : state) : Prop :=
  (forall u, u ∈ visited st <-> In u (saved_urls st)) /\
  (forall u, In u (saved_urls st) -> In u (requests st)).

Section Runs.

Variable urljoin : string -> string -> string.
Variable urlparse_path : string -> string.
Variable host_ip : string.
Variable output_dir : string.
Variable http_get : string -> response.
Variable fs_write : string -> bool.

Abbreviation J := (urljoin (base_url host_ip)).
Abbreviation crawl_resource :=
  (_crawl_resource urljoin urlparse_path host_ip output_dir http_get fs_write).
Abbreviation follow_with := (follow urljoin host_ip).
Abbreviation file_of := (output_file_of urlparse_path output_dir).

(** *** A rule for state invariants *)

Section Invariant.

Variable P : state -> Prop.
Hypothesis P_request : forall st u, P st -> P (with_request st u).
Hypothesis P_save :
  forall st u data,
    P (with_request st u) ->
    http_get u = Response 200 (Some data) ->
    fs_write (file_of u) = true ->
    P (with_save (with_request st u) u (file_of u) data).

Lemma follow_loop_invariant (rec : string -> M unit) cur :
  (forall member_url st, P st -> P (snd (rec member_url st))) ->
  forall values st,
    P st -> P (snd (for_each (follow_with rec cur) values st)).
Proof.
  intros Hrec values.
  induction values as [| value values IH]; intros st Hst; [exact Hst |].
  cbn [for_each]. unfold bind at 1. unfold follow at 1.
  destruct (decide (J value ∈ visited st)); [auto |].
  destruct cur; try exact Hst.
  destruct (Py.str_in s (J value)); [| auto].
  specialize (Hrec (J value) st Hst).
  destruct (rec (J value) st) as [[[] | e |] st1]; cbn [snd] in *; auto.
Qed.

Lemma crawl_resource_step_invariant fuel :
  (forall resource_url st,
      P st -> P (snd (crawl_resource fuel resource_url VisitedSet st))) ->
  forall resource_url st,
    P (with_request st (J resource_url)) ->
    P (snd (crawl_resource (S fuel) resource_url VisitedSet st)).
Proof.
  intros IH resource_url st Hst1.
  rewrite crawl_resource_unfold. cbv zeta.
  destruct (http_get (J resource_url)) as [| status_code body] eqn:Hget;
    [exact Hst1 |].
  destruct (status_code =? 200)%Z eqn:Hstatus; [| exact Hst1].
  apply Z.eqb_eq in Hstatus. subst status_code.
  destruct body as [data |]; [| exact Hst1].
  destruct (fs_write (file_of (J resource_url))) eqn:Hwrite; [| exact Hst1].
  pose proof (P_save _ _ _ Hst1 Hget Hwrite) as Hst2.
  destruct data as [| b | lexeme | s | vs | members]; try exact Hst2.
  - destruct (Py.str_in ODATA_ID s); exact Hst2.
  - destruct (existsb (is_json_string ODATA_ID) vs); exact Hst2.
  - destruct (dict_get ODATA_ID members) as [cur |]; [| exact Hst2].
    apply follow_loop_invariant; [| exact Hst2].
    intros member_url st'. apply IH.
Qed.

Lemma crawl_resource_invariant fuel :
  forall resource_url st,
    P st -> P (snd (crawl_resource fuel resource_url VisitedSet st)).
Proof.
  induction fuel as [| fuel IH]; intros resource_url st Hst; [exact Hst |].
  apply crawl_resource_step_invariant; auto.
Qed.

End Invariant.

Variable start_resource : string.

Abbreviation crawl' :=
  (crawl urljoin urlparse_path host_ip start_resource output_dir http_get fs_write).

Lemma crawl_invariant (P : state -> Prop) fuel :
  (forall st u, P st -> P (with_request st u)) ->
  (forall st u data,
      P (with_request st u) ->
      http_get u = Response 200 (Some data) ->
      fs_write (file_of u) = true ->
      P (with_save (with_request st u) u (file_of u) data)) ->
  P initial_state -> P (snd (crawl' fuel)).
Proof.
  intros Hrequest Hsave Hinit. rewrite crawl_with_new_set.
  apply crawl_resource_invariant; assumption.
Qed.

(** Every write of a run writes the document that the service serves for
    the URL, to the location derived from the URL. *)
Lemma writes_are_served_documents fuel u path data :
  In (u, path, data)
     (files (snd (crawl urljoin urlparse_path host_ip start_resource
                        output_dir http_get fs_write fuel))) ->
  http_get u = Response 200 (Some data) /\
  path = output_file_of urlparse_path output_dir u /\
  fs_write path = true.
Proof.
  revert u path data.
  apply (crawl_invariant (mirrors urlparse_path output_dir http_get fs_write)).
  - intros st u Hst. exact Hst.
  - intros st u data Hst Hget Hwrite u' path' data' Hin.
    cbn [with_save files] in Hin. apply in_app_or in Hin.
    destruct Hin as [Hin | [[= <- <- <-] | []]]; [apply Hst; exact Hin | auto].
  - intros u path data [].
Qed.

Lemma disk_content_written writes path data :
  disk_content writes path = Some data ->
  exists u, In (u, path, data) writes.
Proof.
  induction writes as [| [[u p] d] later IH]; [discriminate |].
  cbn [disk_content]. destruct (disk_content later path) as [d' |].
  - intros [= ->]. destruct (IH eq_refl) as [u' Hu']. exists u'. right. exact Hu'.
  - destruct (String.eqb p path) eqn:Hp; [| discriminate].
    intros [= ->]. apply String.eqb_eq in Hp. subst p.
    exists u. left. reflexivity.
Qed.

Lemma disk_content_agreed writes path u data :
  In (u, path, data) writes ->
  (forall u' data', In (u', path, data') writes -> data' = data) ->
  disk_content writes path = Some data.
Proof.
  induction writes as [| [[u0 p0] d0] later IH]; [intros [] |].
  intros Hin Hall. cbn [disk_content].
  destruct (disk_content later path) as [d' |] eqn:Hlater.
  - destruct (disk_content_written later path d' Hlater) as [u' Hu'].
    f_equal. apply (Hall u'). right. exact Hu'.
  - destruct Hin as [[= _ Hp Hd] | Hin].
    + subst p0 d0. rewrite String.eqb_refl. reflexivity.
    + assert (@None json = Some data) as Hsome; [| discriminate Hsome].
      apply IH; [exact Hin |].
      intros u' data' H'. apply (Hall u'). right. exact H'.
Qed.

(** X1. After a run, whatever its outcome, read the writes it has made as
    the disk, a later write to a path replacing an earlier one.  Then every
    file holds a document that the service serves with status 200 for a URL
    whose storage location is the path of the file; and when the run has
    written for the URL [u] and for no other URL to the storage location of
    [u], the file there holds the document served for [u]. *)
Theorem disk_holds_served_documents fuel path data :
  (disk_content
     (files (snd (crawl urljoin urlparse_path host_ip start_resource
                        output_dir http_get fs_write fuel))) path = Some data ->
   exists u,
     http_get u = Response 200 (Some data) /\
     output_file_of urlparse_path output_dir u = path) /\
  (forall u,
      In (u, path, data)
         (files (snd (crawl urljoin urlparse_path host_ip start_resource
                            output_dir http_get fs_write fuel))) ->
      (forall u' data',
          In (u', path, data')
             (files (snd (crawl urljoin urlparse_path host_ip start_resource
                                output_dir http_get fs_write fuel))) ->
          u' = u) ->
      disk_content
        (files (snd (crawl urljoin urlparse_path host_ip start_resource
                           output_dir http_get fs_write fuel))) path =
      Some data).
Proof.
  split.
  - intros Hdisk. apply disk_content_written in Hdisk. destruct Hdisk as [u Hu].
    destruct (writes_are_served_documents fuel u path data Hu) as (Hget & -> & _).
    exists u. auto.
  - intros u Hu Honly. apply (disk_content_agreed _ _ u); [exact Hu |].
    intros u' data' Hu'. rewrite (Honly u' data' Hu') in Hu'.
    destruct (writes_are_served_documents fuel u path data Hu) as (Hget & _).
    destruct (writes_are_served_documents fuel u path data' Hu') as (Hget' & _).
    congruence.
Qed.

(** X2. Whatever the outcome of a run, the visited set is exactly the set
    of URLs for which a file was written, and every such URL is among the
    URLs the run has requested. *)
Theorem visited_iff_saved fuel :
  (forall u, u ∈ visited (snd (crawl' fuel)) <->
             In u (saved_urls (snd (crawl' fuel)))) /\
  (forall u, In u (saved_urls (snd (crawl' fuel))) ->
             In u (requests (snd (crawl' fuel)))).
Proof.
  apply (crawl_invariant saved_is_visited).
  - intros st u [Hiff Hreq]. split; [exact Hiff |].
    intros x Hx. cbn [with_request requests]. apply in_or_app. left.
    apply Hreq. exact Hx.
  - intros st u data [Hiff Hreq] _ _. split.
    + intros x. rewrite saved_urls_with_save. cbn [with_save visited].
      change (saved_urls (with_request st u)) with (saved_urls st).
      cbn [with_request visited] in Hiff.
      rewrite elem_of_union, elem_of_singleton, in_app_iff, (Hiff x).
      split.
      * intros [-> | H]; [right; left; reflexivity | left; exact H].
      * intros [H | [-> | []]]; [right; exact H | left; reflexivity].
    + intros x Hx. rewrite saved_urls_with_save in Hx.
      cbn [with_save requests]. apply in_app_or in Hx.
      destruct Hx as [Hx | [<- | []]]; [apply Hreq; exact Hx |].
      cbn [with_request requests]. apply in_or_app. right. left. reflexivity.
  - split.
    + intros u. split; [intros Hu; apply not_elem_of_empty in Hu | intros []];
        contradiction.
    + intros u [].
Qed.

(** X3. A call of [_crawl_resource] only adds: whatever its outcome, the
    visited set it leaves contains the one it found, and the requests and
    files it found are a prefix of those it leaves. *)
Theorem crawl_resource_only_adds fuel resource_url st :
  grows st (snd (crawl_resource fuel resource_url VisitedSet st)).
Proof.
  apply (crawl_resource_invariant (grows st)).
  - intros st' u (Hv & (l & Hl) & Hf). split; [exact Hv |]. split; [| exact Hf].
    exists (l ++ [u])%list. cbn [with_request requests]. rewrite Hl.
    symmetry. apply app_assoc.
  - intros st' u data (Hv & Hl & (f & Hf)) _ _. split; [| split; [exact Hl |]].
    + cbn [with_save with_request visited] in *. etrans; [exact Hv |].
      apply union_subseteq_r.
    + exists (f ++ [(u, file_of u, data)])%list.
      cbn [with_save with_request files] in *. rewrite Hf.
      symmetry. apply app_assoc.
  - split; [reflexivity |]. split; exists []; symmetry; apply app_nil_r.
Qed.

End Runs.

(** * Exceptions and their causes *)

(** A document on which the success handler can raise [TypeError]: it is
    not an object, or its ['@odata.id'] is not a string. *)
Definition malformed (data : json) : Prop :=
  (forall members, data <> JObject members) \/
  (exists members cur,
      data = JObject members /\
      dict_get ODATA_ID members = Some cur /\
      forall c, cur <> JString c).

(** What must be the case when a run ends with the outcome [o]. *)
Definition outcome_explained (urlparse_path : string -> string)
    (output_dir : string) (http_get : string -> response)
    (fs_write : string -> bool) (o : outcome unit) : Prop :=
  match o with
  | Raised OSError =>
      exists u data,
        http_get u = Response 200 (Some data) /\
        fs_write (output_file_of urlparse_path output_dir u) = false
  | Raised TypeError =>
      exists u data, http_get u = Response 200 (Some data) /\ malformed data
  | Raised AttributeError => False
  | _ => True
  end.

Section Outcomes.

Variable urljoin : string -> string -> string.
Variable urlparse_path : string -> string.
Variable host_ip : string.
Variable output_dir : string.
Variable http_get : string -> response.
Variable fs_write : string -> bool.
Variable start_resource : string.

Abbreviation J := (urljoin (base_url host_ip)).
Abbreviation crawl_resource :=
  (_crawl_resource urljoin urlparse_path host_ip output_dir http_get fs_write).
Abbreviation follow_with := (follow urljoin host_ip).
Abbreviation file_of := (output_file_of urlparse_path output_dir).
Abbreviation crawl' :=
  (crawl urljoin urlparse_path host_ip start_resource output_dir http_get fs_write).
Abbreviation explained :=
  (outcome_explained urlparse_path output_dir http_get fs_write).

Lemma follow_loop_explained (rec : string -> M unit) u members cur :
  http_get u = Response 200 (Some (JObject members)) ->
  dict_get ODATA_ID members = Some cur ->
  (forall member_url st, explained (fst (rec member_url st))) ->
  forall values st,
    explained (fst (for_each (follow_with rec cur) values st)).
Proof.
  intros Hget Hid Hrec values.
  induction values as [| value values IH]; intros st; [exact I |].
  cbn [for_each]. unfold bind at 1. unfold follow at 1.
  destruct (decide (J value ∈ visited st)); [apply IH |].
  assert ((exists c, cur = JString c) \/ forall c, cur <> JString c)
    as [[c ->] | Hcur] by (destruct cur; eauto; right; discriminate).
  - destruct (Py.str_in c (J value)); [| apply IH].
    specialize (Hrec (J value) st).
    destruct (rec (J value) st) as [[[] | e |] st1]; cbn [fst] in *; auto.
  - assert (explained (Raised TypeError)) as Htype.
    { exists u, (JObject members). split; [exact Hget |]. right. eauto. }
    destruct cur; try exact Htype. exfalso. exact (Hcur _ eq_refl).
Qed.

Lemma crawl_resource_explained fuel :
  forall resource_url st,
    explained (fst (crawl_resource fuel resource_url VisitedSet st)).
Proof.
  induction fuel as [| fuel IH]; intros resource_url st; [exact I |].
  rewrite crawl_resource_unfold. cbv zeta.
  destruct (http_get (J resource_url)) as [| status_code body] eqn:Hget;
    [exact I |].
  destruct (status_code =? 200)%Z eqn:Hstatus; [| exact I].
  apply Z.eqb_eq in Hstatus. subst status_code.
  destruct body as [data |]; [| exact I].
  destruct (fs_write (file_of (J resource_url))) eqn:Hwrite.
  2:{ exists (J resource_url), data. auto. }
  assert ((forall members, data <> JObject members) ->
          explained (Raised TypeError)) as Htype.
  { intros Hdata. exists (J resource_url), data. split; [exact Hget |].
    left. exact Hdata. }
  destruct data as [| b | lexeme | s | vs | members].
  - apply Htype. discriminate.
  - apply Htype. discriminate.
  - apply Htype. discriminate.
  - destruct (Py.str_in ODATA_ID s); [apply Htype; discriminate | exact I].
  - destruct (existsb (is_json_string ODATA_ID) vs);
      [apply Htype; discriminate | exact I].
  - destruct (dict_get ODATA_ID members) as [cur |] eqn:Hid; [| exact I].
    eapply follow_loop_explained; eauto.
Qed.

Lemma crawl_explained fuel : explained (fst (crawl' fuel)).
Proof. rewrite crawl_with_new_set. apply crawl_resource_explained. Qed.

(** X4. An exception leaves a run only for a cause in the service or on
    the disk: [OSError] only when the file of some served document cannot
    be written, [TypeError] only when some served document is not an object
    or has an ['@odata.id'] that is not a string, and [AttributeError]
    never, since [_crawl_related_resources] is entered for objects only. *)
Theorem exceptions_have_causes fuel e :
  fst (crawl' fuel) = Raised e ->
  match e with
  | OSError =>
      exists u data,
        http_get u = Response 200 (Some data) /\ fs_write (file_of u) = false
  | TypeError =>
      exists u data, http_get u = Response 200 (Some data) /\ malformed data
  | AttributeError => False
  end.
Proof.
  intros Hrun. pose proof (crawl_explained fuel) as H. rewrite Hrun in H.
  destruct e; exact H.
Qed.

Lemma well_formed_service_no_raise fuel :
  (forall u data,
      http_get u = Response 200 (Some data) ->
      fs_write (file_of u) = true /\
      exists members,
        data = JObject members /\
        forall cur, dict_get ODATA_ID members = Some cur ->
                    exists c, cur = JString c) ->
  forall e, fst (crawl' fuel) <> Raised e.
Proof.
  intros Hwf e Hrun. pose proof (crawl_explained fuel) as H. rewrite Hrun in H.
  destruct e; unfold outcome_explained in H.
  - destruct H as (u & data & Hget & Hwrite).
    destruct (Hwf u data Hget) as [Hok _]. rewrite Hok in Hwrite. discriminate.
  - destruct H as (u & data & Hget & Hbad).
    destruct (Hwf u data Hget) as (_ & members & -> & Hid).
    destruct Hbad as [Hbad | (members' & cur & [= <-] & Hcur & Hnot)].
    + exact (Hbad _ eq_refl).
    + destruct (Hid cur Hcur) as [c ->]. exact (Hnot _ eq_refl).
  - exact H.
Qed.

(** X5. On a service whose every served document is an object whose
    ['@odata.id'], when it has one, is a string, and with a disk on which
    the file of every served document can be written, neither [OSError] nor
    [TypeError] nor [AttributeError] leaves a run: the run returns normally
    unless it is cut off by the bound on the depth of the recursion. *)
Theorem well_formed_service_returns_or_is_cut_off fuel :
  (forall u data,
      http_get u = Response 200 (Some data) ->
      fs_write (file_of u) = true /\
      exists members,
        data = JObject members /\
        forall cur, dict_get ODATA_ID members = Some cur ->
                    exists c, cur = JString c) ->
  fst (crawl' fuel) = Returned tt \/ fst (crawl' fuel) = OutOfFuel.
Proof.
  intros Hwf. pose proof (well_formed_service_no_raise fuel Hwf) as Hno.
  destruct (fst (crawl' fuel)) as [[] | e |]; [left | | right]; try reflexivity.
  exfalso. exact (Hno e eq_refl).
Qed.

(** X6. When the document of a resource has an ['@odata.id'] that is not a
    string and its file can be written, the document is saved and the URL
    marked visited; the call then returns normally if every candidate link
    of the document is already visited, and raises [TypeError] at the first
    one that is not, without issuing any further request. *)
Theorem non_string_identifier_raises fuel resource_url st members cur :
  http_get (J resource_url) = Response 200 (Some (JObject members)) ->
  fs_write (file_of (J resource_url)) = true ->
  dict_get ODATA_ID members = Some cur ->
  (forall c, cur <> JString c) ->
  crawl_resource (S fuel) resource_url VisitedSet st =
  (if forallb (fun value =>
                 bool_decide (J value ∈ {[J resource_url]} ∪ visited st))
              (candidate_links (JObject members))
   then Returned tt else Raised TypeError,
   with_save (with_request st (J resource_url)) (J resource_url)
             (file_of (J resource_url)) (JObject members)).
Proof.
  intros Hget Hwrite Hid Hcur.
  rewrite crawl_resource_unfold. cbv zeta.
  rewrite Hget, Hwrite, Hid. cbn [Z.eqb Pos.eqb].
  set (st2 := with_save _ _ _ _).
  change ({[J resource_url]} ∪ visited st) with (visited st2).
  generalize (candidate_links (JObject members)) as values.
  induction values as [| value values IH]; [reflexivity |].
  cbn [for_each forallb]. unfold bind at 1. unfold follow at 1.
  destruct (decide (J value ∈ visited st2)) as [Hseen | Hnew].
  - rewrite (bool_decide_eq_true_2 _ Hseen). exact IH.
  - rewrite (bool_decide_eq_false_2 _ Hnew).
    destruct cur; try reflexivity. exfalso. exact (Hcur _ eq_refl).
Qed.

(** X7. When the document of a followed link is served but its file cannot
    be written, the [OSError] ends the loop over the links of the parent:
    only the request is recorded, the URL is not marked visited, and the
    links that come after it in the parent are not processed. *)
Theorem save_failure_ends_loop fuel c value values st data :
  J value ∉ visited st ->
  Py.str_in c (J value) = true ->
  http_get (J (J value)) = Response 200 (Some data) ->
  fs_write (file_of (J (J value))) = false ->
  for_each (follow_with (fun member_url =>
                           crawl_resource (S fuel) member_url VisitedSet)
                        (JString c))
           (value :: values) st =
  (Raised OSError, with_request st (J (J value))).
Proof.
  intros Hnew Hscope Hget Hwrite.
  cbn [for_each]. unfold bind at 1. unfold follow at 1.
  destruct (decide (J value ∈ visited st)); [contradiction |].
  rewrite Hscope, crawl_resource_unfold. cbv zeta.
  rewrite Hget, Hwrite. reflexivity.
Qed.

(** X8. A link whose fetch fails is not remembered: when a document lists
    it twice, in scope and not visited, it is requested twice, and the loop
    goes on with the links that follow. *)
Theorem failing_link_listed_twice fuel c value values st :
  J value ∉ visited st ->
  Py.str_in c (J value) = true ->
  fetch_fails http_get (J (J value)) ->
  for_each (follow_with (fun member_url =>
                           crawl_resource (S fuel) member_url VisitedSet)
                        (JString c))
           (value :: value :: values) st =
  for_each (follow_with (fun member_url =>
                           crawl_resource (S fuel) member_url VisitedSet)
                        (JString c))
           values
           (with_request (with_request st (J (J value))) (J (J value))).
Proof.
  intros Hnew Hscope Hfail.
  cbn [for_each]. unfold bind at 1. unfold follow at 1.
  destruct (decide (J value ∈ visited st)); [contradiction |].
  rewrite Hscope, (crawl_resource_fetch_failed _ _ _ _ _ _ _ _ _ _ Hfail).
  unfold bind at 1. unfold follow at 1. cbn [with_request visited].
  destruct (decide (J value ∈ visited st)); [contradiction |].
  rewrite Hscope, (crawl_resource_fetch_failed _ _ _ _ _ _ _ _ _ _ Hfail).
  reflexivity.
Qed.

End Outcomes.

(** * What a run requests and saves, with an idempotent [urljoin] *)

(** No URL has two files, and a URL with a file is visited. *)
Definition saved_once (st : state) : Prop :=
  (forall u, In u (saved_urls st) -> u ∈ visited st) /\ NoDup (saved_urls st).

Section Closure.

Variable urljoin : string -> string -> string.
Variable urlparse_path : string -> string.
Variable host_ip : string.
Variable output_dir : string.
Variable http_get : string -> response.
Variable fs_write : string -> bool.
Variable start_resource : string.

Abbreviation J := (urljoin (base_url host_ip)).
Abbreviation crawl_resource :=
  (_crawl_resource urljoin urlparse_path host_ip output_dir http_get fs_write).
Abbreviation follow_with := (follow urljoin host_ip).
Abbreviation file_of := (output_file_of urlparse_path output_dir).
Abbreviation crawl' :=
  (crawl urljoin urlparse_path host_ip start_resource output_dir http_get fs_write).
Abbreviation scoped := (link_in_scope urljoin host_ip http_get).

Hypothesis urljoin_idempotent : forall v, J (J v) = J v.

(** *** A rule for invariants that need the saved URL to be new *)

Section FreshInvariant.

Variable P : state -> Prop.
Hypothesis P_request : forall st u, P st -> P (with_request st u).
Hypothesis P_save :
  forall st u data,
    P (with_request st u) ->
    u ∉ visited st ->
    P (with_save (with_request st u) u (file_of u) data).

Lemma follow_loop_fresh_invariant (rec : string -> M unit) cur :
  (forall v st, P st -> J v ∉ visited st -> P (snd (rec (J v) st))) ->
  forall values st,
    P st -> P (snd (for_each (follow_with rec cur) values st)).
Proof.
  intros Hrec values.
  induction values as [| value values IH]; intros st Hst; [exact Hst |].
  cbn [for_each]. unfold bind at 1. unfold follow at 1.
  destruct (decide (J value ∈ visited st)) as [Hseen | Hnew]; [auto |].
  destruct cur; try exact Hst.
  destruct (Py.str_in s (J value)); [| auto].
  specialize (Hrec value st Hst Hnew).
  destruct (rec (J value) st) as [[[] | e |] st1]; cbn [snd] in *; auto.
Qed.

Lemma crawl_resource_fresh_invariant fuel :
  forall resource_url st,
    P st -> J resource_url ∉ visited st ->
    P (snd (crawl_resource fuel resource_url VisitedSet st)).
Proof.
  induction fuel as [| fuel IH]; intros resource_url st Hst Hnew; [exact Hst |].
  rewrite crawl_resource_unfold. cbv zeta.
  pose proof (P_request _ (J resource_url) Hst) as Hst1.
  destruct (http_get (J resource_url)) as [| status_code body]; [exact Hst1 |].
  destruct (status_code =? 200)%Z; [| exact Hst1].
  destruct body as [data |]; [| exact Hst1].
  destruct (fs_write (file_of (J resource_url))); [| exact Hst1].
  pose proof (P_save _ _ data Hst1 Hnew) as Hst2.
  destruct data as [| b | lexeme | s | vs | members]; try exact Hst2.
  - destruct (Py.str_in ODATA_ID s); exact Hst2.
  - destruct (existsb (is_json_string ODATA_ID) vs); exact Hst2.
  - destruct (dict_get ODATA_ID members) as [cur |]; [| exact Hst2].
    apply follow_loop_fresh_invariant; [| exact Hst2].
    intros v st' Hst' Hv. apply IH; [exact Hst' |].
    rewrite urljoin_idempotent. exact Hv.
Qed.

End FreshInvariant.

(** X9. Whatever the outcome of a run, no URL is saved twice: the URLs of
    the files written are pairwise distinct. *)
Theorem no_url_saved_twice fuel : NoDup (saved_urls (snd (crawl' fuel))).
Proof.
  rewrite crawl_with_new_set.
  apply (crawl_resource_fresh_invariant saved_once).
  - intros st u Hst. exact Hst.
  - intros st u data [Hvisited Hnodup] Hnew. split.
    + intros x Hx. rewrite saved_urls_with_save in Hx.
      cbn [with_save with_request visited]. apply elem_of_union.
      apply in_app_or in Hx. destruct Hx as [Hx | [<- | []]].
      * right. apply Hvisited. exact Hx.
      * left. apply elem_of_singleton. reflexivity.
    + rewrite saved_urls_with_save. apply NoDup_app.
      split; [exact Hnodup |]. split; [| apply NoDup_singleton].
      intros x Hx Hx'. apply list_elem_of_singleton in Hx'. subst x.
      apply Hnew. apply Hvisited. apply list_elem_of_In. exact Hx.
  - split; [intros u [] | apply NoDup_nil_2].
  - apply not_elem_of_empty.
Qed.

(** X10. Whatever the outcome of a run, every URL it has requested is the
    start URL or is reached from it through links that pass the scope
    filter of the document that offers them. *)
Theorem requests_within_scope fuel u :
  In u (requests (snd (crawl' fuel))) ->
  rtc (link_in_scope urljoin host_ip http_get) (J start_resource) u.
Proof.
  destruct (crawl_post_holds urljoin urlparse_path host_ip output_dir
              http_get fs_write urljoin_idempotent start_resource fuel)
    as (_ & _ & (l & Hl & Hall) & _).
  rewrite Hl. cbn [initial_state requests app]. apply Hall.
Qed.


(** X12. The first request of a run is the request for the start resource,
    joined to the base URL. *)
Theorem first_request_is_start fuel :
  exists l,
    requests (snd (crawl urljoin urlparse_path host_ip start_resource
                         output_dir http_get fs_write (S fuel))) =
    urljoin (base_url host_ip) start_resource :: l.
Proof.
  rewrite crawl_with_new_set.
  apply (crawl_resource_step_invariant urljoin urlparse_path host_ip output_dir
           http_get fs_write
           (fun st => exists l, requests st = J start_resource :: l)).
  - intros st u data Hst _ _. exact Hst.
  - intros resource_url st.
    apply (crawl_resource_invariant urljoin urlparse_path host_ip output_dir
             http_get fs_write
             (fun st => exists l, requests st = J start_resource :: l)).
    + intros st' u [l Hl]. exists (l ++ [u])%list.
      cbn [with_request requests]. rewrite Hl. reflexivity.
    + intros st' u data Hst _ _. exact Hst.
  - exists []. reflexivity.
Qed.

End Closure.

(** * Storage locations *)

Lemma append_assoc_string (a b c : string) : (a ++ b) ++ c = a ++ (b ++ c).
Proof.
  induction a as [| x a IH]; [reflexivity |].
  rewrite !append_cons, IH. reflexivity.
Qed.

Lemma append_length (a b : string) :
  String.length (a ++ b) = String.length a + String.length b.
Proof.
  induction a as [| x a IH]; [reflexivity |].
  rewrite append_cons. cbn [String.length]. rewrite IH. reflexivity.
Qed.

Lemma append_cancel_l (s a b : string) : s ++ a = s ++ b -> a = b.
Proof.
  induction s as [| x s IH]; [auto |].
  rewrite !append_cons. intros [= H]. auto.
Qed.

Lemma append_cancel_r (s a b : string) : a ++ s = b ++ s -> a = b.
Proof.
  revert b. induction a as [| x a IH]; intros [| y b] H.
  - reflexivity.
  - exfalso. apply (f_equal String.length) in H.
    rewrite append_nil, append_cons in H. cbn [String.length] in H.
    rewrite append_length in H. lia.
  - exfalso. apply (f_equal String.length) in H.
    rewrite append_nil, append_cons in H. cbn [String.length] in H.
    rewrite append_length in H. lia.
  - rewrite !append_cons in H. injection H as -> H. f_equal. auto.
Qed.

Lemma append_not_empty (a r : string) : r <> "" -> a ++ r <> "".
Proof. destruct a; [rewrite append_nil; auto | rewrite append_cons; discriminate]. Qed.

Lemma ends_with_sep_app (a r : string) :
  r <> "" -> Py.ends_with_sep (a ++ r) = Py.ends_with_sep r.
Proof.
  intros Hr. induction a as [| x a IH]; [reflexivity |].
  rewrite append_cons. cbn [Py.ends_with_sep].
  destruct (a ++ r) eqn:Har; [| exact IH].
  exfalso. exact (append_not_empty a r Hr Har).
Qed.

Lemma eqb_app_empty (a r : string) : r <> "" -> String.eqb (a ++ r) "" = false.
Proof.
  intros Hr. apply String.eqb_neq. apply append_not_empty. exact Hr.
Qed.

(** What is left by [lstrip('/redfish/v1')] does not begin with [/]. *)
Lemma lstrip_no_leading_sep (s : string) :
  Py.startswith (Py.lstrip REDFISH_V1 s) "/" = false.
Proof.
  induction s as [| c s IH]; [reflexivity |].
  cbn [Py.lstrip]. destruct (Py.char_in c REDFISH_V1) eqn:Hc; [exact IH |].
  unfold Py.startswith. cbn [String.prefix].
  destruct (ascii_dec "/" c) as [<- | _]; [discriminate Hc | reflexivity].
Qed.

Lemma os_path_join_relative (a b : string) :
  Py.startswith b "/" = false ->
  Py.os_path_join a b =
  if String.eqb a "" || Py.ends_with_sep a then a ++ b else a ++ "/" ++ b.
Proof. intros Hb. unfold Py.os_path_join. rewrite Hb. reflexivity. Qed.

(** X13. Every storage location lies under the output directory and names
    a file [index.json]: whatever the path of the URL, the location is the
    output directory followed by some text followed by [index.json].  An
    absolute path never replaces the output directory, because [lstrip]
    removes every leading [/]. *)
Theorem storage_location_under_output_dir urlparse_path output_dir full_url :
  exists middle,
    output_file_of urlparse_path output_dir full_url =
    output_dir ++ middle ++ "index.json".
Proof.
  unfold output_file_of.
  set (relative_path := Py.lstrip REDFISH_V1 (urlparse_path full_url)).
  rewrite (os_path_join_relative output_dir relative_path)
    by apply lstrip_no_leading_sep.
  rewrite os_path_join_relative by reflexivity.
  destruct (String.eqb output_dir "" || Py.ends_with_sep output_dir);
    match goal with
    | |- context [if ?b then _ else _] => destruct b
    end.
  - exists relative_path. apply append_assoc_string.
  - exists (relative_path ++ "/"). rewrite !append_assoc_string. reflexivity.
  - exists ("/" ++ relative_path). rewrite !append_assoc_string. reflexivity.
  - exists ("/" ++ relative_path ++ "/"). rewrite !append_assoc_string.
    reflexivity.
Qed.

(** X14. The storage location is injective where the prefix removal does
    what it is meant to do: for two URLs whose paths are [/redfish/v1/]
    followed by a non-empty rest that neither begins with a character of
    ["/redfish/v1"] nor ends with [/], equal storage locations force equal
    paths. *)
Theorem storage_location_injective_on_plain_paths
    urlparse_path output_dir url1 url2 rest1 rest2 :
  urlparse_path url1 = "/redfish/v1/" ++ rest1 ->
  urlparse_path url2 = "/redfish/v1/" ++ rest2 ->
  Py.lstrip REDFISH_V1 rest1 = rest1 -> rest1 <> "" ->
  Py.ends_with_sep rest1 = false ->
  Py.lstrip REDFISH_V1 rest2 = rest2 -> rest2 <> "" ->
  Py.ends_with_sep rest2 = false ->
  output_file_of urlparse_path output_dir url1 =
  output_file_of urlparse_path output_dir url2 ->
  urlparse_path url1 = urlparse_path url2.
Proof.
  intros Hpath1 Hpath2 Hstrip1 Hne1 Hend1 Hstrip2 Hne2 Hend2 Hsame.
  rewrite Hpath1, Hpath2. f_equal.
  unfold output_file_of in Hsame. rewrite Hpath1, Hpath2 in Hsame.
  change (Py.lstrip REDFISH_V1 ("/redfish/v1/" ++ rest1))
    with (Py.lstrip REDFISH_V1 rest1) in Hsame.
  change (Py.lstrip REDFISH_V1 ("/redfish/v1/" ++ rest2))
    with (Py.lstrip REDFISH_V1 rest2) in Hsame.
  rewrite Hstrip1, Hstrip2 in Hsame.
  assert (Py.startswith rest1 "/" = false) as Hrel1
    by (rewrite <- Hstrip1; apply lstrip_no_leading_sep).
  assert (Py.startswith rest2 "/" = false) as Hrel2
    by (rewrite <- Hstrip2; apply lstrip_no_leading_sep).
  rewrite (os_path_join_relative output_dir rest1 Hrel1) in Hsame.
  rewrite (os_path_join_relative output_dir rest2 Hrel2) in Hsame.
  rewrite !os_path_join_relative in Hsame by reflexivity.
  destruct (String.eqb output_dir "" || Py.ends_with_sep output_dir).
  - rewrite !eqb_app_empty, !ends_with_sep_app, Hend1, Hend2 in Hsame
      by assumption.
    cbn [orb] in Hsame. apply append_cancel_r in Hsame.
    eapply append_cancel_l. exact Hsame.
  - rewrite <- !append_assoc_string in Hsame.
    rewrite !eqb_app_empty, !ends_with_sep_app, Hend1, Hend2 in Hsame
      by assumption.
    cbn [orb] in Hsame. apply append_cancel_r in Hsame.
    apply append_cancel_r in Hsame.
    eapply append_cancel_l. exact Hsame.
Qed.

(** * Links and scope *)

Lemma link_in_prefixed j s : link_in j s -> Py.startswith s REDFISH_V1 = true.
Proof. induction 1; assumption. Qed.

Lemma candidate_links_prefixed j s :
  In s (candidate_links j) -> Py.startswith s REDFISH_V1 = true.
Proof.
  intros Hs. apply (link_in_prefixed j).
  apply (candidate_links_sound_nested j). exact Hs.
Qed.

(** X16. Scope is inherited: when the identifier of a parent occurs in the
    identifier of a child, every URL that passes the scope filter of the
    child passes the scope filter of the parent. *)
Theorem scope_is_transitive parent child member_url :
  Py.str_in parent child = true ->
  Py.str_in child member_url = true ->
  Py.str_in parent member_url = true.
Proof.
  rewrite !str_in_iff. intros (pre1 & post1 & ->) (pre2 & post2 & ->).
  exists (pre2 ++ pre1), (post1 ++ post2).
  rewrite !append_assoc_string. reflexivity.
Qed.

(** * Concrete runs for the properties above *)

Module MoreScenarios.

(** A collection whose ['@odata.id'] is a number. *)
Definition numeric_id_document : json :=
  JObject
    [(ODATA_ID, JNumber "5");
     ("Members", JArray [Scenario.obj_ref "/redfish/v1/Chassis/1"])].

Definition numeric_id_service : string -> response :=
  Scenario.serve [(Scenario.CHASSIS, Response 200 (Some numeric_id_document))].

Definition CHASSIS_QUERY : string := "https://bmc/redfish/v1/Chassis?full".

End MoreScenarios.

Lemma visited_iff_saved_witness :
  In Scenario.CHASSIS_1
     (saved_urls (snd (Scenario.run "bmc" "/redfish/v1/Chassis"
                                    Scenario.missing_power_service
                                    Scenario.always_writable 5))) /\
  In Scenario.CHASSIS_1
     (requests (snd (Scenario.run "bmc" "/redfish/v1/Chassis"
                                  Scenario.missing_power_service
                                  Scenario.always_writable 5))).
Proof.
  assert (In Scenario.CHASSIS_1
            (saved_urls (snd (Scenario.run "bmc" "/redfish/v1/Chassis"
                                           Scenario.missing_power_service
                                           Scenario.always_writable 5)))) as H.
  { vm_compute. right. left. reflexivity. }
  split; [exact H |].
  exact (proj2 (visited_iff_saved
                  Urllib.urljoin Urllib.urlparse_path "bmc" "redfish_mock_data"
                  Scenario.missing_power_service Scenario.always_writable
                  "/redfish/v1/Chassis" 5) _ H).
Defined.

Lemma exceptions_have_causes_witness :
  fst (Scenario.run "bmc" "/redfish/v1/Chassis" Scenario.two_members_service
                    Scenario.member_1_read_only 5) = Raised OSError /\
  exists u data,
    Scenario.two_members_service u = Response 200 (Some data) /\
    Scenario.member_1_read_only
      (output_file_of Urllib.urlparse_path "redfish_mock_data" u) = false.
Proof.
  assert (fst (Scenario.run "bmc" "/redfish/v1/Chassis"
                            Scenario.two_members_service
                            Scenario.member_1_read_only 5) = Raised OSError) as H.
  { vm_compute. reflexivity. }
  split; [exact H |].
  exact (exceptions_have_causes
           Urllib.urljoin Urllib.urlparse_path "bmc" "redfish_mock_data"
           Scenario.two_members_service Scenario.member_1_read_only
           "/redfish/v1/Chassis" 5 OSError H).
Defined.

Lemma cycle_service_well_formed_everywhere u data :
  Scenario.cycle_service u = Response 200 (Some data) ->
  Scenario.always_writable
    (output_file_of Urllib.urlparse_path "redfish_mock_data" u) = true /\
  exists members,
    data = JObject members /\
    forall cur, dict_get ODATA_ID members = Some cur -> exists c, cur = JString c.
Proof.
  intros Hget. split; [reflexivity |].
  unfold Scenario.cycle_service, Scenario.serve in Hget. cbn [find fst snd] in Hget.
  destruct (String.eqb Scenario.CHASSIS u).
  - injection Hget as <-. eexists. split; [reflexivity |].
    intros cur [= <-]. eauto.
  - destruct (String.eqb Scenario.CHASSIS_1 u); [| discriminate].
    injection Hget as <-. eexists. split; [reflexivity |].
    intros cur [= <-]. eauto.
Qed.

Lemma well_formed_service_returns_or_is_cut_off_witness :
  (forall u data,
      Scenario.cycle_service u = Response 200 (Some data) ->
      Scenario.always_writable
        (output_file_of Urllib.urlparse_path "redfish_mock_data" u) = true /\
      exists members,
        data = JObject members /\
        forall cur, dict_get ODATA_ID members = Some cur ->
                    exists c, cur = JString c) /\
  fst (Scenario.run "bmc" "/redfish/v1/Chassis" Scenario.cycle_service
                    Scenario.always_writable 2) = Returned tt /\
  (fst (Scenario.run "bmc" "/redfish/v1/Chassis" Scenario.cycle_service
                     Scenario.always_writable 2) = Returned tt \/
   fst (Scenario.run "bmc" "/redfish/v1/Chassis" Scenario.cycle_service
                     Scenario.always_writable 2) = OutOfFuel).
Proof.
  split; [exact cycle_service_well_formed_everywhere |].
  split; [vm_compute; reflexivity |].
  exact (well_formed_service_returns_or_is_cut_off
           Urllib.urljoin Urllib.urlparse_path "bmc" "redfish_mock_data"
           Scenario.cycle_service Scenario.always_writable
           "/redfish/v1/Chassis" 2 cycle_service_well_formed_everywhere).
Defined.

Lemma non_string_identifier_raises_witness :
  (forall c, JNumber "5" <> JString c) /\
  fst (_crawl_resource Urllib.urljoin Urllib.urlparse_path "bmc"
         "redfish_mock_data" MoreScenarios.numeric_id_service
         Scenario.always_writable 1 "/redfish/v1/Chassis" VisitedSet
         initial_state) = Raised TypeError.
Proof.
  assert (forall c, JNumber "5" <> JString c) as H by discriminate.
  split; [exact H |].
  rewrite (non_string_identifier_raises
             Urllib.urljoin Urllib.urlparse_path "bmc" "redfish_mock_data"
             MoreScenarios.numeric_id_service Scenario.always_writable
             0 "/redfish/v1/Chassis" initial_state
             [(ODATA_ID, JNumber "5");
              ("Members", JArray [Scenario.obj_ref "/redfish/v1/Chassis/1"])]
             (JNumber "5") eq_refl eq_refl eq_refl H).
  vm_compute. reflexivity.
Defined.

Lemma save_failure_ends_loop_witness :
  Scenario.two_members_service
    (Urllib.urljoin (base_url "bmc")
       (Urllib.urljoin (base_url "bmc") "/redfish/v1/Chassis/1")) =
    Response 200 (Some (Scenario.obj_ref "/redfish/v1/Chassis/1")) /\
  Scenario.member_1_read_only
    (output_file_of Urllib.urlparse_path "redfish_mock_data"
       (Urllib.urljoin (base_url "bmc")
          (Urllib.urljoin (base_url "bmc") "/redfish/v1/Chassis/1"))) = false /\
  for_each
    (follow Urllib.urljoin "bmc"
       (fun member_url =>
          _crawl_resource Urllib.urljoin Urllib.urlparse_path "bmc"
            "redfish_mock_data" Scenario.two_members_service
            Scenario.member_1_read_only 1 member_url VisitedSet)
       (JString "/redfish/v1/Chassis"))
    ["/redfish/v1/Chassis/1"; "/redfish/v1/Chassis/2"] initial_state =
  (Raised OSError,
   with_request initial_state
     (Urllib.urljoin (base_url "bmc")
        (Urllib.urljoin (base_url "bmc") "/redfish/v1/Chassis/1"))).
Proof.
  split; [reflexivity |]. split; [reflexivity |].
  exact (save_failure_ends_loop
           Urllib.urljoin Urllib.urlparse_path "bmc" "redfish_mock_data"
           Scenario.two_members_service Scenario.member_1_read_only
           0 "/redfish/v1/Chassis" "/redfish/v1/Chassis/1"
           ["/redfish/v1/Chassis/2"] initial_state
           (Scenario.obj_ref "/redfish/v1/Chassis/1")
           (not_elem_of_empty _) eq_refl eq_refl eq_refl).
Defined.

Lemma failing_link_listed_twice_witness :
  fetch_fails Scenario.missing_power_service
    (Urllib.urljoin (base_url "bmc")
       (Urllib.urljoin (base_url "bmc") "/redfish/v1/Chassis/1/Power")) /\
  for_each
    (follow Urllib.urljoin "bmc"
       (fun member_url =>
          _crawl_resource Urllib.urljoin Urllib.urlparse_path "bmc"
            "redfish_mock_data" Scenario.missing_power_service
            Scenario.always_writable 1 member_url VisitedSet)
       (JString "/redfish/v1/Chassis"))
    ["/redfish/v1/Chassis/1/Power"; "/redfish/v1/Chassis/1/Power"]
    initial_state =
  (Returned tt,
   with_request (with_request initial_state Scenario.POWER) Scenario.POWER).
Proof.
  assert (fetch_fails Scenario.missing_power_service
            (Urllib.urljoin (base_url "bmc")
               (Urllib.urljoin (base_url "bmc") "/redfish/v1/Chassis/1/Power")))
    as H.
  { right. left. exists 404%Z, None. split; [reflexivity | discriminate]. }
  split; [exact H |].
  exact (failing_link_listed_twice
           Urllib.urljoin Urllib.urlparse_path "bmc" "redfish_mock_data"
           Scenario.missing_power_service Scenario.always_writable
           0 "/redfish/v1/Chassis" "/redfish/v1/Chassis/1/Power" []
           initial_state (not_elem_of_empty _) eq_refl H).
Defined.

Lemma no_url_saved_twice_witness :
  NoDup (saved_urls (snd (Scenario.run "bmc" "/redfish/v1/Chassis"
                                       Scenario.shared_power_service
                                       Scenario.always_writable 5))).
Proof.
  exact (no_url_saved_twice
           Urllib.urljoin Urllib.urlparse_path "bmc" "redfish_mock_data"
           Scenario.shared_power_service Scenario.always_writable
           "/redfish/v1/Chassis" (urljoin_model_idempotent "bmc") 5).
Defined.

Lemma requests_within_scope_witness :
  In Scenario.POWER
     (requests (snd (Scenario.run "bmc" "/redfish/v1/Chassis"
                                  Scenario.missing_power_service
                                  Scenario.always_writable 5))) /\
  rtc (link_in_scope Urllib.urljoin "bmc" Scenario.missing_power_service)
      (Urllib.urljoin (base_url "bmc") "/redfish/v1/Chassis") Scenario.POWER.
Proof.
  assert (In Scenario.POWER
            (requests (snd (Scenario.run "bmc" "/redfish/v1/Chassis"
                                         Scenario.missing_power_service
                                         Scenario.always_writable 5)))) as H.
  { vm_compute. right. right. left. reflexivity. }
  split; [exact H |].
  exact (requests_within_scope
           Urllib.urljoin Urllib.urlparse_path "bmc" "redfish_mock_data"
           Scenario.missing_power_service Scenario.always_writable
           "/redfish/v1/Chassis" (urljoin_model_idempotent "bmc") 5 _ H).
Defined.


Lemma storage_location_injective_on_plain_paths_witness :
  output_file_of Urllib.urlparse_path "redfish_mock_data" Scenario.CHASSIS =
  output_file_of Urllib.urlparse_path "redfish_mock_data"
                 MoreScenarios.CHASSIS_QUERY /\
  Urllib.urlparse_path Scenario.CHASSIS =
  Urllib.urlparse_path MoreScenarios.CHASSIS_QUERY.
Proof.
  split; [reflexivity |].
  refine (storage_location_injective_on_plain_paths
            Urllib.urlparse_path "redfish_mock_data"
            Scenario.CHASSIS MoreScenarios.CHASSIS_QUERY "Chassis" "Chassis"
            eq_refl eq_refl eq_refl _ eq_refl eq_refl _ eq_refl eq_refl);
    discriminate.
Defined.

Lemma scope_is_transitive_witness :
  Py.str_in "/redfish/v1/Chassis" "/redfish/v1/Chassis/1" = true /\
  Py.str_in "/redfish/v1/Chassis/1" Scenario.POWER = true /\
  Py.str_in "/redfish/v1/Chassis" Scenario.POWER = true.
Proof.
  split; [reflexivity |]. split; [reflexivity |].
  exact (scope_is_transitive "/redfish/v1/Chassis" "/redfish/v1/Chassis/1"
                             Scenario.POWER eq_refl eq_refl).
Defined.

(** * Where the requested URLs come from *)

(** [u] is the URL requested for a reference that begins with
    [/redfish/v1]: the reference joined to the base URL by
    [_crawl_related_resources], and joined again by [_crawl_resource]. *)
Definition rooted_request (urljoin : string -> string -> string)
    (host_ip : string) (u : string) : Prop :=
  exists value,
    Py.startswith value REDFISH_V1 = true /\
    u = urljoin (base_url host_ip) (urljoin (base_url host_ip) value).

Section Rooted.

Variable urljoin : string -> string -> string.
Variable urlparse_path : string -> string.
Variable host_ip : string.
Variable output_dir : string.
Variable http_get : string -> response.
Variable fs_write : string -> bool.
Variable start_resource : string.

Abbreviation J := (urljoin (base_url host_ip)).
Abbreviation crawl_resource :=
  (_crawl_resource urljoin urlparse_path host_ip output_dir http_get fs_write).
Abbreviation follow_with := (follow urljoin host_ip).
Abbreviation file_of := (output_file_of urlparse_path output_dir).
Abbreviation rooted := (rooted_request urljoin host_ip).

Lemma follow_loop_rooted (rec : string -> M unit) cur :
  (forall v st,
      requests_extend (fun u => u = J (J v) \/ rooted u) st
                      (snd (rec (J v) st))) ->
  forall values,
    (forall v, In v values -> Py.startswith v REDFISH_V1 = true) ->
    forall st,
      requests_extend rooted st
                      (snd (for_each (follow_with rec cur) values st)).
Proof.
  intros Hrec values.
  induction values as [| value values IH]; intros Hvalues st.
  { apply requests_extend_refl. }
  assert (forall v, In v values -> Py.startswith v REDFISH_V1 = true)
    as Hvalues' by (intros v Hv; apply Hvalues; right; exact Hv).
  cbn [for_each]. unfold bind at 1. unfold follow at 1.
  destruct (decide (J value ∈ visited st)); [apply IH; exact Hvalues' |].
  destruct cur; try apply requests_extend_refl.
  destruct (Py.str_in s (J value)); [| apply IH; exact Hvalues'].
  assert (requests_extend rooted st (snd (rec (J value) st))) as Hfirst.
  { eapply requests_extend_impl; [| apply Hrec].
    intros u [-> | Hu]; [| exact Hu].
    exists value. split; [apply Hvalues; left |]; reflexivity. }
  destruct (rec (J value) st) as [[[] | e |] st1]; cbn [snd] in *;
    [| exact Hfirst | exact Hfirst].
  eapply requests_extend_trans; [exact Hfirst |]. apply IH. exact Hvalues'.
Qed.

Lemma crawl_resource_rooted fuel :
  forall resource_url st,
    requests_extend (fun u => u = J resource_url \/ rooted u) st
                    (snd (crawl_resource fuel resource_url VisitedSet st)).
Proof.
  induction fuel as [| fuel IH]; intros resource_url st.
  { apply requests_extend_refl. }
  rewrite crawl_resource_unfold. cbv zeta.
  assert (forall data,
             requests_extend (fun u => u = J resource_url \/ rooted u) st
               (with_save (with_request st (J resource_url)) (J resource_url)
                          (file_of (J resource_url)) data)) as Hsaved.
  { intros data. exists [J resource_url]. split; [reflexivity |].
    intros u [<- | []]. left. reflexivity. }
  assert (requests_extend (fun u => u = J resource_url \/ rooted u) st
            (with_request st (J resource_url))) as Hrequested.
  { exists [J resource_url]. split; [reflexivity |].
    intros u [<- | []]. left. reflexivity. }
  destruct (http_get (J resource_url)) as [| status_code body];
    [exact Hrequested |].
  destruct (status_code =? 200)%Z; [| exact Hrequested].
  destruct body as [data |]; [| exact Hrequested].
  destruct (fs_write (file_of (J resource_url))); [| exact Hrequested].
  specialize (Hsaved data).
  destruct data as [| b | lexeme | s | vs | members]; try exact Hsaved.
  - destruct (Py.str_in ODATA_ID s); exact Hsaved.
  - destruct (existsb (is_json_string ODATA_ID) vs); exact Hsaved.
  - destruct (dict_get ODATA_ID members) as [cur |]; [| exact Hsaved].
    eapply requests_extend_trans; [exact Hsaved |].
    eapply requests_extend_impl; [intros u Hu; right; exact Hu |].
    apply follow_loop_rooted.
    + intros v st'. apply IH.
    + intros v Hv. apply (candidate_links_prefixed (JObject members)). exact Hv.
Qed.

(** X15. Whatever the outcome of a run, every URL it has requested is the
    start resource joined to the base URL, or a reference that begins with
    [/redfish/v1] joined to the base URL: a reference to anything else,
    such as a URL of another host or a relative path, is never requested. *)
Theorem requests_come_from_rooted_references fuel u :
  In u (requests (snd (crawl urljoin urlparse_path host_ip start_resource
                             output_dir http_get fs_write fuel))) ->
  u = urljoin (base_url host_ip) start_resource \/
  exists value,
    Py.startswith value REDFISH_V1 = true /\
    u = urljoin (base_url host_ip) (urljoin (base_url host_ip) value).
Proof.
  rewrite crawl_with_new_set.
  destruct (crawl_resource_rooted fuel start_resource initial_state)
    as (l & Hl & Hall).
  rewrite Hl. cbn [initial_state requests app]. apply Hall.
Qed.

End Rooted.

Lemma requests_come_from_rooted_references_witness :
  In Scenario.POWER
     (requests (snd (Scenario.run "bmc" "/redfish/v1/Chassis"
                                  Scenario.missing_power_service
                                  Scenario.always_writable 5))) /\
  (Scenario.POWER = Urllib.urljoin (base_url "bmc") "/redfish/v1/Chassis" \/
   exists value,
     Py.startswith value REDFISH_V1 = true /\
     Scenario.POWER =
     Urllib.urljoin (base_url "bmc") (Urllib.urljoin (base_url "bmc") value)).
Proof.
  assert (In Scenario.POWER
            (requests (snd (Scenario.run "bmc" "/redfish/v1/Chassis"
                                         Scenario.missing_power_service
                                         Scenario.always_writable 5)))) as H.
  { vm_compute. right. right. left. reflexivity. }
  split; [exact H |].
  exact (requests_come_from_rooted_references
           Urllib.urljoin Urllib.urlparse_path "bmc" "redfish_mock_data"
           Scenario.missing_power_service Scenario.always_writable
           "/redfish/v1/Chassis" 5 _ H).
Defined.

Lemma disk_holds_served_documents_witness :
  disk_content
    (files (snd (Scenario.run "bmc" "/redfish/v1" Scenario.colliding_service
                              Scenario.always_writable 5)))
    "redfish_mock_data/Chassis/index.json" =
  Some (Scenario.obj_ref "/redfish/v1/1/Chassis") /\
  exists u,
    Scenario.colliding_service u =
      Response 200 (Some (Scenario.obj_ref "/redfish/v1/1/Chassis")) /\
    output_file_of Urllib.urlparse_path "redfish_mock_data" u =
      "redfish_mock_data/Chassis/index.json".
Proof.
  assert (disk_content
            (files (snd (Scenario.run "bmc" "/redfish/v1"
                                      Scenario.colliding_service
                                      Scenario.always_writable 5)))
            "redfish_mock_data/Chassis/index.json" =
          Some (Scenario.obj_ref "/redfish/v1/1/Chassis")) as H.
  { vm_compute. reflexivity. }
  split; [exact H |].
  exact (proj1 (disk_holds_served_documents
                  Urllib.urljoin Urllib.urlparse_path "bmc" "redfish_mock_data"
                  Scenario.colliding_service Scenario.always_writable
                  "/redfish/v1" 5 "redfish_mock_data/Chassis/index.json"
                  (Scenario.obj_ref "/redfish/v1/1/Chassis")) H).
Defined.

(** * The cycle and the shared resource on a disk that refuses a write *)


Lemma shared_power_links_in_scope u :
  u ∈ Scenario.shared_power_urls ->
  exists members c,
    Scenario.shared_power_service u = Response 200 (Some (JObject members)) /\
    dict_get ODATA_ID members = Some (JString c) /\
    forall value,
      In value (candidate_links (JObject members)) ->
      Py.str_in c (Urllib.urljoin (base_url "bmc") value) = true.
Proof.
  intros Hu.
  destruct (shared_power_served u Hu) as (members & c & Hget & Hid & Hall & _).
  exists members, c. auto.
Qed.

